(** * Salary countdown server: rate derivation and session settlement

    A shallow embedding of the request handlers of [routes.ts] and of the
    two stores of [storage.ts] ([MemStorage], [MongoStorage]), together with
    the properties of the rate calculation and of the settlement of an
    income session.

    Numbers.  A JavaScript [number] is an IEEE-754 binary64 value.  The
    embedding keeps the special values of that format ([Infinity],
    [-Infinity], [NaN] and the negative zero) and computes finite results
    exactly, as rationals: the rounding of each arithmetic operation to 53
    bits and overflow to infinity are abstracted away.  The statements
    below are to be read in that arithmetic.  [Binary64] repeats the two
    computations in binary64 itself, on primitive floats, and the scenarios
    the statements are tried on are run there as well: they give the same
    figures. *)

From Stdlib Require Import ZArith QArith Qround Qabs Lqa Lia Bool List String.
From Stdlib Require Import Floats.
Import ListNotations.

Set Implicit Arguments.
Set Warnings "-inexact-float".

(* ================================================================== *)
(** * Part I.  The model                                               *)
(* ================================================================== *)

(** ** JavaScript numbers *)

Inductive number : Type :=
| Fin (q : Q)          (* a finite value; [Fin q] with [q == 0] is +0 *)
| NegZero              (* -0 *)
| Infinity
| NegInfinity
| NaN.

Module Number.

Local Open Scope Q_scope.

(** The sign bit of a value ([NaN] carries none that matters). *)
Definition signbit (x : number) : bool :=
  match x with
  | Fin q => (Qnum q <? 0)%Z
  | NegZero | NegInfinity => true
  | Infinity | NaN => false
  end.

Definition zero_of (negative : bool) : number :=
  if negative then NegZero else Fin 0.

Definition inf_of (negative : bool) : number :=
  if negative then NegInfinity else Infinity.

(** The cases the arithmetic of IEEE-754 distinguishes. *)
Inductive kind : Type :=
| KNaN
| KInf
| KZero
| KNum (q : Q).        (* finite and not zero *)

Definition classify (x : number) : kind :=
  match x with
  | NaN => KNaN
  | Infinity | NegInfinity => KInf
  | NegZero => KZero
  | Fin q => if (Qnum q =? 0)%Z then KZero else KNum q
  end.

(** [x * y] *)
Definition mul (x y : number) : number :=
  let s := xorb (signbit x) (signbit y) in
  match classify x, classify y with
  | KNaN, _ | _, KNaN => NaN
  | KInf, KZero | KZero, KInf => NaN
  | KInf, _ | _, KInf => inf_of s
  | KZero, _ | _, KZero => zero_of s
  | KNum a, KNum b => Fin (a * b)
  end.

(** [x / y] *)
Definition div (x y : number) : number :=
  let s := xorb (signbit x) (signbit y) in
  match classify x, classify y with
  | KNaN, _ | _, KNaN => NaN
  | KInf, KInf => NaN
  | KInf, _ => inf_of s
  | _, KInf => zero_of s
  | KZero, KZero => NaN
  | KZero, _ => zero_of s
  | _, KZero => inf_of s
  | KNum a, KNum b => Fin (a / b)
  end.

(** [x - y] *)
Definition sub (x y : number) : number :=
  match classify x, classify y with
  | KNaN, _ | _, KNaN => NaN
  | KInf, KInf =>
      if Bool.eqb (signbit x) (signbit y) then NaN else x
  | KInf, _ => x
  | _, KInf => inf_of (negb (signbit y))
  | KZero, KZero => zero_of (signbit x && negb (signbit y))
  | KZero, KNum b => Fin (- b)
  | KNum a, KZero => Fin a
  | KNum a, KNum b => Fin (a - b)
  end.

(** [Math.round(x)]: the integer nearest to [x], a tie going up; the
    sign of [x] is kept when the result is a zero. *)
Definition Math_round (x : number) : number :=
  match x with
  | Fin q =>
      let n := Qfloor (q + (1 # 2)) in
      if (n =? 0)%Z then zero_of (Qnum q <? 0)%Z else Fin (inject_Z n)
  | _ => x
  end.

(** The string a number is printed to, by what it denotes. *)
Inductive numeric_string : Type :=
| Hundredths (negative : bool) (n : Z)
    (* an optional "-", then the digits of [n] with a point before the
       last two: the decimal [n / 100] *)
| Verbatim (x : number).
    (* [Number::toString(x)]: "Infinity", "-Infinity", "NaN", or the
       shortest digits that read back as [x] *)

Definition ten_pow_21 : Q := inject_Z (10 ^ 21).

(** [x.toFixed(2)].  A value that is not finite, or of magnitude at
    least 10^21, is printed by [Number::toString]; otherwise the sign is
    taken off a value below zero and the magnitude is printed as the
    integer [n] of hundredths nearest to it, the larger one on a tie. *)
Definition toFixed2 (x : number) : numeric_string :=
  match x with
  | Fin q =>
      if Qle_bool ten_pow_21 (Qabs q) then Verbatim x
      else Hundredths (Qnum q <? 0)%Z (Qfloor (Qabs q * 100 + (1 # 2)))
  | NegZero => Hundredths false 0
  | _ => Verbatim x
  end.

(** [parseFloat(s)] on the strings [toFixed] produces. *)
Definition parseFloat (s : numeric_string) : number :=
  match s with
  | Hundredths negative n =>
      if (n =? 0)%Z then zero_of negative
      else Fin (if negative then - (inject_Z n / 100) else inject_Z n / 100)
  | Verbatim x => x
  end.

(** The value of a finite number; both zeros are 0. *)
Definition finite_value (x : number) : option Q :=
  match x with
  | Fin q => Some q
  | NegZero => Some 0
  | _ => None
  end.

Definition isFinite (x : number) : bool :=
  match finite_value x with Some _ => true | None => false end.

(** [x < y]: false as soon as one side is [NaN]; the two zeros are equal. *)
Definition ltb (x y : number) : bool :=
  match x, y with
  | NaN, _ | _, NaN => false
  | _, NegInfinity => false
  | NegInfinity, _ => true
  | Infinity, _ => false
  | _, Infinity => true
  | _, _ =>
      match finite_value x, finite_value y with
      | Some a, Some b => negb (Qle_bool b a)
      | _, _ => false
      end
  end.

End Number.

Declare Scope number_scope.
Delimit Scope number_scope with num.
Bind Scope number_scope with number.
Infix "*" := Number.mul : number_scope.
Infix "/" := Number.div : number_scope.
Infix "-" := Number.sub : number_scope.

(** Numeric literals of the source. *)
Definition lit (q : Q) : number := Fin q.

(** ** Dates *)

(** A [Date] is its time value: milliseconds since the epoch.  The dates
    the handlers meet are made by [new Date()] or read back from a stored
    session, so they are valid. *)
Definition Date : Type := Z.
Bind Scope Z_scope with Date.

Definition getTime (d : Date) : number := Fin (inject_Z d).

(** ** The records of [schema.ts] *)

Module UserSettings.
Record t : Type := mk {
  id : string;
  monthlySalary : number;
  dailyHours : number;
  weeklyDays : number;
  isHoliday : bool;
  createdAt : Date;
  updatedAt : Date
}.
End UserSettings.

Module IncomeSession.
Record t : Type := mk {
  id : string;
  userSettingsId : string;
  sessionStart : Date;
  sessionEnd : option Date;
  totalEarned : number;
  isActive : bool
}.
End IncomeSession.

(** [Partial<IncomeSession>]: each key is absent ([None]) or carries a
    value of the field. *)
Module PartialIncomeSession.
Record t : Type := mk {
  id : option string;
  userSettingsId : option string;
  sessionStart : option Date;
  sessionEnd : option Date;
  totalEarned : option number;
  isActive : option bool
}.
End PartialIncomeSession.

(** [InsertIncomeSession], inferred from [insertIncomeSessionSchema]. *)
Module InsertIncomeSession.
Record t : Type := mk { userSettingsId : string }.
End InsertIncomeSession.

(** [InsertUserSettings], inferred from [insertUserSettingsSchema]: what
    the schema gives out, [isHoliday] being defaulted. *)
Module InsertUserSettings.
Record t : Type := mk {
  monthlySalary : number;
  dailyHours : number;
  weeklyDays : number;
  isHoliday : bool
}.
End InsertUserSettings.

(** [Partial<InsertUserSettings>], also what the schema made partial gives
    out: a key that is absent from the input is absent from the output. *)
Module PartialInsertUserSettings.
Record t : Type := mk {
  monthlySalary : option number;
  dailyHours : option number;
  weeklyDays : option number;
  isHoliday : option bool
}.
End PartialInsertUserSettings.

(** ** Request bodies and their validation *)

(** A value of a parsed JSON body.  The schema looks at the type of a
    value and, for a number or a boolean, at the value: the content of a
    string, an array or an object is not kept. *)
Module Json.
Inductive value : Type :=
| Null
| Boolean (b : bool)
| Num (n : number)
| Str
| Array
| Object.
End Json.

(** The body of a request on user settings: the four keys the schema
    knows, each present or not (other keys are stripped by the schema).
    [None] is a body that is no object. *)
Module SettingsBody.
Record fields : Type := mk {
  monthlySalary : option Json.value;
  dailyHours : option Json.value;
  weeklyDays : option Json.value;
  isHoliday : option Json.value
}.

Definition t : Type := option fields.
End SettingsBody.

(** [insertUserSettingsSchema] of [schema.ts] and its [.partial()], as zod
    parses an input with them: zod 3, whose [ZodError] has the [errors]
    the handlers read.  There [z.number()] takes every number but [NaN],
    the infinities included, and the bounds decide on those. *)
Module Zod.

(** An entry of [error.errors]: the code zod gives it, the key it is
    about (the empty string for the body as a whole) and, for a bound of
    the schema, the message the schema gives. *)
Inductive issue : Type :=
| invalid_type (path : string)
| too_small (path message : string)
| too_big (path message : string).

(** [schema.parse(input)] returns the parsed value or throws a [ZodError]. *)
Inductive parsed (A : Type) : Type :=
| Valid (output : A)
| ZodError (errors : list issue).
Arguments ZodError {A}.

(** The checks of [z.number().min(lo, ...)...]: every check is run. *)
Definition bounds (path : string) (lo : Q) (lo_message : string)
    (hi : option (Q * string)) (n : number) : list issue :=
  ((if Number.ltb n (Fin lo) then [too_small path lo_message] else [])
   ++
   match hi with
   | Some (hi, hi_message) =>
       if Number.ltb (Fin hi) n then [too_big path hi_message] else []
   | None => []
   end)%list.

(** [z.number()] with its checks on a key that is required: the value
    must be a number, and [NaN] is none. *)
Definition required_number (path : string) (lo : Q) (lo_message : string)
    (hi : option (Q * string)) (input : option Json.value)
  : list issue * option number :=
  match input with
  | Some (Json.Num NaN) => ([invalid_type path], None)
  | Some (Json.Num n) => (bounds path lo lo_message hi n, Some n)
  | _ => ([invalid_type path], None)
  end.

(** The same key under [.partial()]: an absent key passes and stays
    absent. *)
Definition optional_number (path : string) (lo : Q) (lo_message : string)
    (hi : option (Q * string)) (input : option Json.value)
  : list issue * option number :=
  match input with
  | None => ([], None)
  | Some _ => required_number path lo lo_message hi input
  end.

(** [z.boolean().optional().default(false)] *)
Definition boolean_default (path : string) (default : bool)
    (input : option Json.value) : list issue * bool :=
  match input with
  | None => ([], default)
  | Some (Json.Boolean b) => ([], b)
  | Some _ => ([invalid_type path], default)
  end.

(** The same key under [.partial()]: absent, the default is not applied. *)
Definition optional_boolean (path : string) (input : option Json.value)
  : list issue * option bool :=
  match input with
  | None => ([], None)
  | Some (Json.Boolean b) => ([], Some b)
  | Some _ => ([invalid_type path], None)
  end.

Definition monthlySalary_min : string := "Monthly salary must be greater than 0".
Definition dailyHours_min : string := "Daily hours must be at least 1".
Definition dailyHours_max : string := "Daily hours cannot exceed 24".
Definition weeklyDays_min : string := "Must work at least 1 day per week".
Definition weeklyDays_max : string := "Cannot exceed 7 days per week".

(** [insertUserSettingsSchema.parse(body)]: the keys are parsed in the
    order of the schema and the issues of all of them are reported. *)
Definition insertUserSettingsSchema (body : SettingsBody.t)
  : parsed InsertUserSettings.t :=
  match body with
  | None => ZodError [invalid_type ""]
  | Some body =>
      let (e1, monthlySalary) :=
        required_number "monthlySalary" 1 monthlySalary_min None
          (SettingsBody.monthlySalary body) in
      let (e2, dailyHours) :=
        required_number "dailyHours" 1 dailyHours_min (Some (24%Q, dailyHours_max))
          (SettingsBody.dailyHours body) in
      let (e3, weeklyDays) :=
        required_number "weeklyDays" 1 weeklyDays_min (Some (7%Q, weeklyDays_max))
          (SettingsBody.weeklyDays body) in
      let (e4, isHoliday) :=
        boolean_default "isHoliday" false (SettingsBody.isHoliday body) in
      match (e1 ++ e2 ++ e3 ++ e4)%list, monthlySalary, dailyHours, weeklyDays with
      | [], Some monthlySalary, Some dailyHours, Some weeklyDays =>
          Valid
            (InsertUserSettings.mk monthlySalary dailyHours weeklyDays isHoliday)
      | errors, _, _, _ => ZodError errors
      end
  end.

(** [insertUserSettingsSchema.partial().parse(body)] *)
Definition insertUserSettingsSchema_partial (body : SettingsBody.t)
  : parsed PartialInsertUserSettings.t :=
  match body with
  | None => ZodError [invalid_type ""]
  | Some body =>
      let (e1, monthlySalary) :=
        optional_number "monthlySalary" 1 monthlySalary_min None
          (SettingsBody.monthlySalary body) in
      let (e2, dailyHours) :=
        optional_number "dailyHours" 1 dailyHours_min
          (Some (24%Q, dailyHours_max)) (SettingsBody.dailyHours body) in
      let (e3, weeklyDays) :=
        optional_number "weeklyDays" 1 weeklyDays_min
          (Some (7%Q, weeklyDays_max)) (SettingsBody.weeklyDays body) in
      let (e4, isHoliday) :=
        optional_boolean "isHoliday" (SettingsBody.isHoliday body) in
      match (e1 ++ e2 ++ e3 ++ e4)%list with
      | [] =>
          Valid
            (PartialInsertUserSettings.mk
               monthlySalary dailyHours weeklyDays isHoliday)
      | errors => ZodError errors
      end
  end.
End Zod.

(** The value of a key of [{ ...existing, ...updateData }]: the one
    [updateData] supplies, the existing one when the key is absent. *)
Definition overridden {A : Type} (old : A) (supplied : option A) : A :=
  match supplied with
  | Some v => v
  | None => old
  end.

(** ** Computations that may throw, over a store

    The methods of a store are [async]: they read and write the store and
    may throw.  [M S A] is such a computation on a store of type [S]; a
    write made before a throw stays made. *)

Inductive outcome (A : Type) : Type :=
| Returned (a : A)
| Thrown.
Arguments Thrown {A}.

Definition M (S A : Type) : Type := S -> outcome A * S.

Definition ret {S A : Type} (a : A) : M S A := fun s => (Returned a, s).

Definition bind {S A B : Type} (m : M S A) (k : A -> M S B) : M S B :=
  fun s =>
    match m s with
    | (Returned a, s') => k a s'
    | (Thrown, s') => (Thrown, s')
    end.

Definition throw {S A : Type} : M S A := fun s => (Thrown, s).

(** [try { body } catch (error) { handler }] *)
Definition try_catch {S A : Type} (body handler : M S A) : M S A :=
  fun s =>
    match body s with
    | (Returned a, s') => (Returned a, s')
    | (Thrown, s') => handler s'
    end.

Definition gets {S A : Type} (f : S -> A) : M S A := fun s => (Returned (f s), s).

Definition modify {S : Type} (f : S -> S) : M S unit := fun s => (Returned tt, f s).

Declare Scope store_scope.
Delimit Scope store_scope with store.
Notation "x <- m ;; k" := (bind m (fun x => k))
  (at level 61, m at next level, right associativity) : store_scope.
Notation "m ;;; k" := (bind m (fun _ => k))
  (at level 61, right associativity) : store_scope.

Local Open Scope string_scope.

(** ** [MemStorage]: the store held in two JavaScript [Map]s *)

(** A [Map] keeps its entries in insertion order; [set] on a key that is
    present replaces the value in place. *)
Module JsMap.
Definition t (V : Type) : Type := list (string * V).

Definition empty {V : Type} : t V := [].

Fixpoint get {V : Type} (k : string) (m : t V) : option V :=
  match m with
  | [] => None
  | (k', v) :: rest => if String.eqb k' k then Some v else get k rest
  end.

Fixpoint set {V : Type} (k : string) (v : V) (m : t V) : t V :=
  match m with
  | [] => [(k, v)]
  | (k', v') :: rest =>
      if String.eqb k' k then (k', v) :: rest else (k', v') :: set k v rest
  end.

Definition values {V : Type} (m : t V) : list V := List.map snd m.
End JsMap.

Module MemStorage.
Local Open Scope store_scope.

Record state : Type := mk {
  userSettings : JsMap.t UserSettings.t;
  incomeSessions : JsMap.t IncomeSession.t
}.

(** [constructor()] *)
Definition new : state := mk JsMap.empty JsMap.empty.

Definition set_incomeSessions (id : string) (session : IncomeSession.t)
  : M state unit :=
  modify (fun st =>
    mk (userSettings st) (JsMap.set id session (incomeSessions st))).

Definition getUserSettings (id : string) : M state (option UserSettings.t) :=
  gets (fun st => JsMap.get id (userSettings st)).

Definition getActiveSession (userSettingsId : string)
  : M state (option IncomeSession.t) :=
  gets (fun st =>
    List.find
      (fun session =>
         String.eqb (IncomeSession.userSettingsId session) userSettingsId
         && IncomeSession.isActive session)
      (JsMap.values (incomeSessions st))).

(** [uuid] is the value of [randomUUID()], [now] that of [new Date()]. *)
Definition createIncomeSession (uuid : string) (now : Date)
    (insertSession : InsertIncomeSession.t) : M state IncomeSession.t :=
  let id := uuid in
  let session :=
    IncomeSession.mk id (InsertIncomeSession.userSettingsId insertSession)
      now None (Fin 0) true in
  set_incomeSessions id session ;;;
  ret session.

(** [{ ...existing, ...updateData }] *)
Definition spread (existing : IncomeSession.t)
    (updateData : PartialIncomeSession.t) : IncomeSession.t :=
  IncomeSession.mk
    (overridden (IncomeSession.id existing)
       (PartialIncomeSession.id updateData))
    (overridden (IncomeSession.userSettingsId existing)
       (PartialIncomeSession.userSettingsId updateData))
    (overridden (IncomeSession.sessionStart existing)
       (PartialIncomeSession.sessionStart updateData))
    (match PartialIncomeSession.sessionEnd updateData with
     | Some d => Some d
     | None => IncomeSession.sessionEnd existing
     end)
    (overridden (IncomeSession.totalEarned existing)
       (PartialIncomeSession.totalEarned updateData))
    (overridden (IncomeSession.isActive existing)
       (PartialIncomeSession.isActive updateData)).

Definition updateIncomeSession (id : string)
    (updateData : PartialIncomeSession.t)
  : M state (option IncomeSession.t) :=
  existing <- gets (fun st => JsMap.get id (incomeSessions st)) ;;
  match existing with
  | None => ret None
  | Some existing =>
      let updated := spread existing updateData in
      set_incomeSessions id updated ;;;
      ret (Some updated)
  end.
Definition set_userSettings (id : string) (settings : UserSettings.t)
  : M state unit :=
  modify (fun st =>
    mk (JsMap.set id settings (userSettings st)) (incomeSessions st)).

(** [uuid] is the value of [randomUUID()]; [createdAt] and [updatedAt] are
    the values of the two [new Date()]. *)
Definition createUserSettings (uuid : string) (createdAt updatedAt : Date)
    (insertSettings : InsertUserSettings.t) : M state UserSettings.t :=
  let id := uuid in
  let settings :=
    UserSettings.mk id
      (InsertUserSettings.monthlySalary insertSettings)
      (InsertUserSettings.dailyHours insertSettings)
      (InsertUserSettings.weeklyDays insertSettings)
      (InsertUserSettings.isHoliday insertSettings)
      createdAt updatedAt in
  set_userSettings id settings ;;;
  ret settings.

(** [{ ...existing, ...updateData, updatedAt: new Date() }] *)
Definition updateUserSettings (now : Date) (id : string)
    (updateData : PartialInsertUserSettings.t)
  : M state (option UserSettings.t) :=
  existing <- gets (fun st => JsMap.get id (userSettings st)) ;;
  match existing with
  | None => ret None
  | Some existing =>
      let updated :=
        UserSettings.mk
          (UserSettings.id existing)
          (overridden (UserSettings.monthlySalary existing)
             (PartialInsertUserSettings.monthlySalary updateData))
          (overridden (UserSettings.dailyHours existing)
             (PartialInsertUserSettings.dailyHours updateData))
          (overridden (UserSettings.weeklyDays existing)
             (PartialInsertUserSettings.weeklyDays updateData))
          (overridden (UserSettings.isHoliday existing)
             (PartialInsertUserSettings.isHoliday updateData))
          (UserSettings.createdAt existing)
          now in
      set_userSettings id updated ;;;
      ret (Some updated)
  end.

(** [now] is the value of [new Date()]. *)
Definition endIncomeSession (now : Date) (id : string)
  : M state (option IncomeSession.t) :=
  existing <- gets (fun st => JsMap.get id (incomeSessions st)) ;;
  match existing with
  | None => ret None
  | Some existing =>
      let updated :=
        IncomeSession.mk
          (IncomeSession.id existing)
          (IncomeSession.userSettingsId existing)
          (IncomeSession.sessionStart existing)
          (Some now)
          (IncomeSession.totalEarned existing)
          false in
      set_incomeSessions id updated ;;;
      ret (Some updated)
  end.
End MemStorage.

(** ** [MongoStorage]: the store held in two Mongoose collections *)

(** The documents of [mongoModels.ts]. *)
Module UserSettingsDoc.
Record t : Type := mk {
  _id : string;
  monthlySalary : number;
  dailyHours : number;
  weeklyDays : number;
  isHoliday : bool;
  createdAt : Date;
  updatedAt : Date
}.
End UserSettingsDoc.

Module IncomeSessionDoc.
Record t : Type := mk {
  _id : string;
  userSettingsId : string;
  sessionStart : Date;
  sessionEnd : option Date;
  totalEarned : number;
  isActive : bool
}.
End IncomeSessionDoc.

(** The operations of a Mongoose model the store calls.  A collection is
    the list of its documents in natural (insertion) order, [_id] being
    unique in it. *)
Module Model.
Section Collection.
Variable Doc : Type.
Variable _id : Doc -> string.

Definition collection : Type := list Doc.

(** [Model.findOne(filter)]: the first document the filter selects. *)
Definition findOne (filter : Doc -> bool) (c : collection) : option Doc :=
  List.find filter c.

(** [Model.findById(id)] *)
Definition findById (id : string) (c : collection) : option Doc :=
  findOne (fun d => String.eqb (_id d) id) c.

(** [Model.findByIdAndUpdate(id, update, { new: true })]: the document
    after the update, and the collection holding it. *)
Fixpoint findByIdAndUpdate (id : string) (update : Doc -> Doc)
    (c : collection) : option Doc * collection :=
  match c with
  | [] => (None, [])
  | d :: rest =>
      if String.eqb (_id d) id then (Some (update d), update d :: rest)
      else
        let (found, rest') := findByIdAndUpdate id update rest in
        (found, d :: rest')
  end.

(** [doc.save()] of a new document: refused (a duplicate-key error is
    thrown) when its [_id] is taken. *)
Definition save (doc : Doc) (c : collection) : option collection :=
  match findById (_id doc) c with
  | Some _ => None
  | None => Some (c ++ [doc])%list
  end.
End Collection.
End Model.

Module MongoStorage.
Local Open Scope store_scope.

(** The database behind [UserSettingsModel] and [IncomeSessionModel]. *)
Record state : Type := mk {
  UserSettingsModel : Model.collection UserSettingsDoc.t;
  IncomeSessionModel : Model.collection IncomeSessionDoc.t
}.

Definition toUserSettings (user : UserSettingsDoc.t) : UserSettings.t :=
  UserSettings.mk
    (UserSettingsDoc._id user)
    (UserSettingsDoc.monthlySalary user)
    (UserSettingsDoc.dailyHours user)
    (UserSettingsDoc.weeklyDays user)
    (UserSettingsDoc.isHoliday user)
    (UserSettingsDoc.createdAt user)
    (UserSettingsDoc.updatedAt user).

Definition toIncomeSession (session : IncomeSessionDoc.t) : IncomeSession.t :=
  IncomeSession.mk
    (IncomeSessionDoc._id session)
    (IncomeSessionDoc.userSettingsId session)
    (IncomeSessionDoc.sessionStart session)
    (IncomeSessionDoc.sessionEnd session)
    (IncomeSessionDoc.totalEarned session)
    (IncomeSessionDoc.isActive session).

(** The update [findByIdAndUpdate(id, updateData)] makes: the supplied
    paths of the schema are set; [id] is no path of the schema. *)
Definition set_paths (updateData : PartialIncomeSession.t)
    (doc : IncomeSessionDoc.t) : IncomeSessionDoc.t :=
  IncomeSessionDoc.mk
    (IncomeSessionDoc._id doc)
    (overridden (IncomeSessionDoc.userSettingsId doc)
       (PartialIncomeSession.userSettingsId updateData))
    (overridden (IncomeSessionDoc.sessionStart doc)
       (PartialIncomeSession.sessionStart updateData))
    (match PartialIncomeSession.sessionEnd updateData with
     | Some d => Some d
     | None => IncomeSessionDoc.sessionEnd doc
     end)
    (overridden (IncomeSessionDoc.totalEarned doc)
       (PartialIncomeSession.totalEarned updateData))
    (overridden (IncomeSessionDoc.isActive doc)
       (PartialIncomeSession.isActive updateData)).

Definition getUserSettings (id : string) : M state (option UserSettings.t) :=
  try_catch
    (user <- gets (fun db =>
       Model.findById UserSettingsDoc._id id (UserSettingsModel db)) ;;
     match user with
     | Some user => ret (Some (toUserSettings user))
     | None => ret None
     end)
    (ret None).

Definition getActiveSession (userSettingsId : string)
  : M state (option IncomeSession.t) :=
  try_catch
    (session <- gets (fun db =>
       Model.findOne
         (fun d =>
            String.eqb (IncomeSessionDoc.userSettingsId d) userSettingsId
            && Bool.eqb (IncomeSessionDoc.isActive d) true)
         (IncomeSessionModel db)) ;;
     match session with
     | Some session => ret (Some (toIncomeSession session))
     | None => ret None
     end)
    (ret None).

(** [new IncomeSessionModel(insertSession)]: [oid] is the fresh
    [ObjectId] and [now] the value of [Date.now], the default of
    [sessionStart]; [totalEarned] defaults to 0, [isActive] to true. *)
Definition new_IncomeSessionModel (oid : string) (now : Date)
    (insertSession : InsertIncomeSession.t) : IncomeSessionDoc.t :=
  IncomeSessionDoc.mk oid
    (InsertIncomeSession.userSettingsId insertSession)
    now None (Fin 0) true.

Definition createIncomeSession (oid : string) (now : Date)
    (insertSession : InsertIncomeSession.t) : M state IncomeSession.t :=
  try_catch
    (let session := new_IncomeSessionModel oid now insertSession in
     saved <- gets (fun db =>
       Model.save IncomeSessionDoc._id session (IncomeSessionModel db)) ;;
     match saved with
     | Some c =>
         modify (fun db => mk (UserSettingsModel db) c) ;;;
         ret (toIncomeSession session)
     | None => throw
     end)
    throw.

Definition updateIncomeSession (id : string)
    (updateData : PartialIncomeSession.t)
  : M state (option IncomeSession.t) :=
  try_catch
    (updatedSession <-
       (fun db =>
          let (found, c) :=
            Model.findByIdAndUpdate IncomeSessionDoc._id id
              (set_paths updateData) (IncomeSessionModel db) in
          (Returned found, mk (UserSettingsModel db) c)) ;;
     match updatedSession with
     | Some updatedSession => ret (Some (toIncomeSession updatedSession))
     | None => ret None
     end)
    (ret None).

Definition getUserSettingsById (id : string)
  : M state (option UserSettings.t) :=
  getUserSettings id.

Definition getIncomeSessionById (id : string)
  : M state (option IncomeSession.t) :=
  try_catch
    (session <- gets (fun db =>
       Model.findById IncomeSessionDoc._id id (IncomeSessionModel db)) ;;
     match session with
     | None => ret None
     | Some session => ret (Some (toIncomeSession session))
     end)
    (ret None).
(** [new UserSettingsModel(insertUserSettings)] and its [save()]: [oid] is
    the fresh [ObjectId]; with [timestamps: true] the save sets
    [createdAt] and [updatedAt] to the clock value [now]. *)
Definition new_UserSettingsModel (oid : string) (now : Date)
    (insertUserSettings : InsertUserSettings.t) : UserSettingsDoc.t :=
  UserSettingsDoc.mk oid
    (InsertUserSettings.monthlySalary insertUserSettings)
    (InsertUserSettings.dailyHours insertUserSettings)
    (InsertUserSettings.weeklyDays insertUserSettings)
    (InsertUserSettings.isHoliday insertUserSettings)
    now now.

Definition createUserSettings (oid : string) (now : Date)
    (insertUserSettings : InsertUserSettings.t) : M state UserSettings.t :=
  try_catch
    (let user := new_UserSettingsModel oid now insertUserSettings in
     saved <- gets (fun db =>
       Model.save UserSettingsDoc._id user (UserSettingsModel db)) ;;
     match saved with
     | Some c =>
         modify (fun db => mk c (IncomeSessionModel db)) ;;;
         ret (toUserSettings user)
     | None => throw
     end)
    throw.

(** The update [{ ...updateData, updatedAt: new Date() }] makes. *)
Definition set_settings_paths (now : Date)
    (updateData : PartialInsertUserSettings.t)
    (doc : UserSettingsDoc.t) : UserSettingsDoc.t :=
  UserSettingsDoc.mk
    (UserSettingsDoc._id doc)
    (overridden (UserSettingsDoc.monthlySalary doc)
       (PartialInsertUserSettings.monthlySalary updateData))
    (overridden (UserSettingsDoc.dailyHours doc)
       (PartialInsertUserSettings.dailyHours updateData))
    (overridden (UserSettingsDoc.weeklyDays doc)
       (PartialInsertUserSettings.weeklyDays updateData))
    (overridden (UserSettingsDoc.isHoliday doc)
       (PartialInsertUserSettings.isHoliday updateData))
    (UserSettingsDoc.createdAt doc)
    now.

Definition updateUserSettings (now : Date) (id : string)
    (updateData : PartialInsertUserSettings.t)
  : M state (option UserSettings.t) :=
  try_catch
    (updatedUser <-
       (fun db =>
          let (found, c) :=
            Model.findByIdAndUpdate UserSettingsDoc._id id
              (set_settings_paths now updateData) (UserSettingsModel db) in
          (Returned found, mk c (IncomeSessionModel db))) ;;
     match updatedUser with
     | Some updatedUser => ret (Some (toUserSettings updatedUser))
     | None => ret None
     end)
    (ret None).

(** The update [{ sessionEnd: new Date(), isActive: false }] makes. *)
Definition ended (now : Date) (doc : IncomeSessionDoc.t) : IncomeSessionDoc.t :=
  IncomeSessionDoc.mk
    (IncomeSessionDoc._id doc)
    (IncomeSessionDoc.userSettingsId doc)
    (IncomeSessionDoc.sessionStart doc)
    (Some now)
    (IncomeSessionDoc.totalEarned doc)
    false.

Definition endIncomeSession (now : Date) (id : string)
  : M state (option IncomeSession.t) :=
  try_catch
    (updatedSession <-
       (fun db =>
          let (found, c) :=
            Model.findByIdAndUpdate IncomeSessionDoc._id id (ended now)
              (IncomeSessionModel db) in
          (Returned found, mk (UserSettingsModel db) c)) ;;
     match updatedSession with
     | Some updatedSession => ret (Some (toIncomeSession updatedSession))
     | None => ret None
     end)
    (ret None).
End MongoStorage.

(** ** The request handlers of [routes.ts] *)

(** The body of [GET /api/calculate-rates]. *)
Module Rates.
Record t : Type := mk {
  perMinute : number;
  perHour : number;
  perDay : number;
  monthlyHours : number
}.
End Rates.

(** What a handler answers: a status and the value given to [res.json]. *)
Inductive payload : Type :=
| Message (message : string)
| Session (session : option IncomeSession.t)
| RatesBody (rates : Rates.t).

Record response : Type := respond {
  status : Z;
  body : payload
}.

(** [storage], exported by [storage.ts], is a [MongoStorage]. *)
Definition handler : Type := M MongoStorage.state response.

(** What a handler on user settings answers. *)
Inductive settings_payload : Type :=
| SettingsMessage (message : string)
| Settings (settings : UserSettings.t)
| InvalidInput (message : string) (errors : list Zod.issue).

Record settings_response : Type := settings_respond {
  settings_status : Z;
  settings_body : settings_payload
}.

Definition settings_handler : Type := M MongoStorage.state settings_response.

Module Routes.
Local Open Scope store_scope.
Import Number.

(** [POST /api/income-session].  [userSettingsId] is the field of the
    request body: [!userSettingsId] holds when it is missing and when it is
    the empty string.  [oid] and [now] are the [ObjectId] and the clock
    value a created session receives. *)
Definition post_income_session (oid : string) (now : Date)
    (userSettingsId : option string) : handler :=
  try_catch
    (match userSettingsId with
     | None => ret (respond 400 (Message "User settings ID is required"))
     | Some userSettingsId =>
         if String.eqb userSettingsId "" then
           ret (respond 400 (Message "User settings ID is required"))
         else
           activeSession <- MongoStorage.getActiveSession userSettingsId ;;
           match activeSession with
           | Some activeSession =>
               ret (respond 200 (Session (Some activeSession)))
           | None =>
               session <-
                 MongoStorage.createIncomeSession oid now
                   (InsertIncomeSession.mk userSettingsId) ;;
               ret (respond 200 (Session (Some session)))
           end
     end)
    (ret (respond 500 (Message "Internal server error"))).

(** Lines 511-520 of [DELETE /api/income-session/:id]: the amount a
    session started at [sessionStart] has earned at [now]. *)
Definition earned (settings : UserSettings.t) (sessionStart now : Date)
  : number :=
  let elapsedMs := (getTime now - getTime sessionStart)%num in
  let elapsedMinutes := (elapsedMs / lit 1000 / lit 60)%num in
  let monthlyHours :=
    (UserSettings.dailyHours settings * UserSettings.weeklyDays settings
     * lit 4.33)%num in
  let hourlyRate := (UserSettings.monthlySalary settings / monthlyHours)%num in
  parseFloat (toFixed2 (elapsedMinutes * (hourlyRate / lit 60))%num).

(** [DELETE /api/income-session/:id]; [now] is the value of [new Date()]. *)
Definition delete_income_session (now : Date) (id : string) : handler :=
  try_catch
    (session <- MongoStorage.getIncomeSessionById id ;;
     match session with
     | None => ret (respond 404 (Message "Active session not found"))
     | Some session =>
         if negb (IncomeSession.isActive session) then
           ret (respond 404 (Message "Active session not found"))
         else
           settings <-
             MongoStorage.getUserSettingsById
               (IncomeSession.userSettingsId session) ;;
           match settings with
           | None => ret (respond 404 (Message "User settings not found"))
           | Some settings =>
               let earned :=
                 earned settings (IncomeSession.sessionStart session) now in
               updatedSession <-
                 MongoStorage.updateIncomeSession id
                   (PartialIncomeSession.mk None None None
                      (Some now) (Some earned) (Some false)) ;;
               ret (respond 200 (Session updatedSession))
           end
     end)
    (ret (respond 500 (Message "Internal server error"))).

(** Lines 575-585 of [GET /api/calculate-rates/:userSettingsId]. *)
Definition rates (settings : UserSettings.t) : Rates.t :=
  let monthlyHours :=
    (UserSettings.dailyHours settings * UserSettings.weeklyDays settings
     * lit 4.33)%num in
  let hourlyRate := (UserSettings.monthlySalary settings / monthlyHours)%num in
  let minuteRate := (hourlyRate / lit 60)%num in
  let dailyRate := (hourlyRate * UserSettings.dailyHours settings)%num in
  Rates.mk
    (Math_round (minuteRate * lit 100) / lit 100)%num
    (Math_round (hourlyRate * lit 100) / lit 100)%num
    (Math_round (dailyRate * lit 100) / lit 100)%num
    (Math_round (monthlyHours * lit 100) / lit 100)%num.

(** [GET /api/calculate-rates/:userSettingsId] *)
Definition calculate_rates (userSettingsId : string) : handler :=
  try_catch
    (settings <- MongoStorage.getUserSettings userSettingsId ;;
     match settings with
     | None => ret (respond 404 (Message "Settings not found"))
     | Some settings => ret (respond 200 (RatesBody (rates settings)))
     end)
    (ret (respond 500 (Message "Internal server error"))).
(** [POST /api/user-settings]: a [ZodError] thrown by [parse] is caught
    and answered with 400, any other error with 500.  [oid] and [now] are
    the [ObjectId] and the clock value the created document receives. *)
Definition post_user_settings (oid : string) (now : Date)
    (body : SettingsBody.t) : settings_handler :=
  match Zod.insertUserSettingsSchema body with
  | Zod.ZodError errors =>
      ret (settings_respond 400 (InvalidInput "Invalid input" errors))
  | Zod.Valid validatedData =>
      try_catch
        (settings <- MongoStorage.createUserSettings oid now validatedData ;;
         ret (settings_respond 200 (Settings settings)))
        (ret (settings_respond 500 (SettingsMessage "Internal server error")))
  end.

(** [GET /api/user-settings/:id] *)
Definition get_user_settings (id : string) : settings_handler :=
  try_catch
    (settings <- MongoStorage.getUserSettings id ;;
     match settings with
     | None => ret (settings_respond 404 (SettingsMessage "Settings not found"))
     | Some settings => ret (settings_respond 200 (Settings settings))
     end)
    (ret (settings_respond 500 (SettingsMessage "Internal server error"))).

(** [PATCH /api/user-settings/:id]; [now] is the clock value of the
    update. *)
Definition patch_user_settings (now : Date) (id : string)
    (body : SettingsBody.t) : settings_handler :=
  match Zod.insertUserSettingsSchema_partial body with
  | Zod.ZodError errors =>
      ret (settings_respond 400 (InvalidInput "Invalid input" errors))
  | Zod.Valid validatedData =>
      try_catch
        (settings <- MongoStorage.updateUserSettings now id validatedData ;;
         match settings with
         | None =>
             ret (settings_respond 404 (SettingsMessage "Settings not found"))
         | Some settings => ret (settings_respond 200 (Settings settings))
         end)
        (ret (settings_respond 500 (SettingsMessage "Internal server error")))
  end.

(** [GET /api/income-session/:userSettingsId] *)
Definition get_income_session (userSettingsId : string) : handler :=
  try_catch
    (session <- MongoStorage.getActiveSession userSettingsId ;;
     match session with
     | None => ret (respond 404 (Message "No active session found"))
     | Some session => ret (respond 200 (Session (Some session)))
     end)
    (ret (respond 500 (Message "Internal server error"))).

(** [PATCH /api/income-session/:id] on a body whose [totalEarned] is a
    number. *)
Definition patch_income_session (id : string) (totalEarned : number)
  : handler :=
  try_catch
    (session <-
       MongoStorage.updateIncomeSession id
         (PartialIncomeSession.mk None None None None (Some totalEarned) None) ;;
     match session with
     | None => ret (respond 404 (Message "Session not found"))
     | Some session => ret (respond 200 (Session (Some session)))
     end)
    (ret (respond 500 (Message "Internal server error"))).
End Routes.

(** ** The two computations in binary64

    The arithmetic of [rates] and [earned] on primitive floats, operation
    by operation as a JavaScript engine performs it. *)
Module Binary64.
Local Open Scope Q_scope.

Definition signed (negative : bool) (q : Q) : Q := if negative then - q else q.

(** The magnitude of the finite float of mantissa [m] and exponent [e]. *)
Definition magnitude (m : positive) (e : Z) : Q :=
  inject_Z (Zpos m) * Qpower 2 e.

Definition zero_of (negative : bool) : float :=
  if negative then (-0)%float else 0%float.

(** The float of an integer below 2^53 in magnitude. *)
Definition of_integer (n : Z) : float :=
  if (n <? 0)%Z then PrimFloat.opp (PrimFloat.of_uint63 (Uint63.of_Z (- n)))
  else PrimFloat.of_uint63 (Uint63.of_Z n).

(** The float nearest to the decimal [n / d], as [parseFloat] reads it. *)
Definition nearest (negative : bool) (n d : Z) : float :=
  match n with
  | Zpos p =>
      SF2Prim
        (SFdiv prec emax (S754_finite negative p 0)
           (S754_finite false (Z.to_pos d) 0))
  | _ => zero_of negative
  end.

(** [Math.round(x)]: a float with no fractional bits is its own rounding. *)
Definition Math_round (x : float) : float :=
  match Prim2SF x with
  | S754_finite negative m e =>
      if (0 <=? e)%Z then x
      else
        let n := Qfloor (signed negative (magnitude m e) + (1 # 2)) in
        if (n =? 0)%Z then zero_of negative else of_integer n
  | _ => x
  end.

(** [parseFloat(x.toFixed(2))] *)
Definition parseFloat_toFixed2 (x : float) : float :=
  match Prim2SF x with
  | S754_finite negative m e =>
      if Qle_bool Number.ten_pow_21 (magnitude m e) then x
      else nearest negative (Qfloor (magnitude m e * 100 + (1 # 2))) 100
  | S754_zero _ => 0%float
  | _ => x
  end.

(** [Date.getTime()]: time values are integers below 2^53. *)
Definition getTime (d : Date) : float := of_integer d.

Definition rates (monthlySalary dailyHours weeklyDays : float)
  : float * float * float * float :=
  let monthlyHours := (dailyHours * weeklyDays * 4.33)%float in
  let hourlyRate := (monthlySalary / monthlyHours)%float in
  let minuteRate := (hourlyRate / 60)%float in
  let dailyRate := (hourlyRate * dailyHours)%float in
  ((Math_round (minuteRate * 100) / 100)%float,
   (Math_round (hourlyRate * 100) / 100)%float,
   (Math_round (dailyRate * 100) / 100)%float,
   (Math_round (monthlyHours * 100) / 100)%float).

Definition earned (monthlySalary dailyHours weeklyDays : float)
    (sessionStart now : Date) : float :=
  let elapsedMs := (getTime now - getTime sessionStart)%float in
  let elapsedMinutes := (elapsedMs / 1000 / 60)%float in
  let monthlyHours := (dailyHours * weeklyDays * 4.33)%float in
  let hourlyRate := (monthlySalary / monthlyHours)%float in
  parseFloat_toFixed2 (elapsedMinutes * (hourlyRate / 60))%float.
End Binary64.

(** A store to run the handlers on.  It holds the configuration of the
    API documentation (salary 5000, 8 hours a day, 5 days a week), a
    configuration with no daily hours, a session that is running for the
    first and a session that has ended. *)
Module Example.
Definition settingsDoc : UserSettingsDoc.t :=
  UserSettingsDoc.mk "507f1f77bcf86cd799439011"
    (Fin 5000) (Fin 8) (Fin 5) false 0 0.

Definition idleDoc : UserSettingsDoc.t :=
  UserSettingsDoc.mk "507f1f77bcf86cd799439013"
    (Fin 5000) (Fin 0) (Fin 5) false 0 0.

Definition settings : UserSettings.t :=
  MongoStorage.toUserSettings settingsDoc.

(** Started one hour after the epoch. *)
Definition runningDoc : IncomeSessionDoc.t :=
  IncomeSessionDoc.mk "507f1f77bcf86cd799439012"
    "507f1f77bcf86cd799439011" 3600000 None (Fin 0) true.

Definition endedDoc : IncomeSessionDoc.t :=
  IncomeSessionDoc.mk "507f1f77bcf86cd799439014"
    "507f1f77bcf86cd799439011" 0 (Some 60000%Z) (Fin 0.48) false.

Definition db : MongoStorage.state :=
  MongoStorage.mk [settingsDoc; idleDoc] [runningDoc; endedDoc].

(** The same store before any session was started. *)
Definition fresh_db : MongoStorage.state :=
  MongoStorage.mk [settingsDoc; idleDoc] [].

(** The two sessions in a [MemStorage]. *)
Definition mem : MemStorage.state :=
  MemStorage.mk
    [("507f1f77bcf86cd799439011", settings)]
    [("507f1f77bcf86cd799439012", MongoStorage.toIncomeSession runningDoc);
     ("507f1f77bcf86cd799439014", MongoStorage.toIncomeSession endedDoc)].

(** A store whose only configuration is the one of the API documentation. *)
Definition valid_db : MongoStorage.state :=
  MongoStorage.mk [settingsDoc] [runningDoc; endedDoc].

(** The body of the API documentation, and one with two faults. *)
Definition body : SettingsBody.t :=
  Some
    (SettingsBody.mk (Some (Json.Num (Fin 5000))) (Some (Json.Num (Fin 8)))
       (Some (Json.Num (Fin 5))) (Some (Json.Boolean false))).

Definition bad_body : SettingsBody.t :=
  Some
    (SettingsBody.mk (Some (Json.Num (Fin 0.5))) (Some (Json.Num (Fin 25)))
       (Some (Json.Num (Fin 5))) None).

(** A body that changes the daily hours only. *)
Definition hours_body : SettingsBody.t :=
  Some (SettingsBody.mk None (Some (Json.Num (Fin 6))) None None).
End Example.

(** ** The quantities of the specification, over the rationals *)

Module Spec.
Local Open Scope Q_scope.

(** A salary configuration within its bounds. *)
Definition valid (monthlySalary dailyHours weeklyDays : Q) : Prop :=
  0 < monthlySalary /\
  (0 < dailyHours /\ dailyHours <= 24) /\
  (0 < weeklyDays /\ weeklyDays <= 7).

Definition monthlyHours (dailyHours weeklyDays : Q) : Q :=
  dailyHours * weeklyDays * 4.33.

Definition hourlyRate (monthlySalary dailyHours weeklyDays : Q) : Q :=
  monthlySalary / monthlyHours dailyHours weeklyDays.

Definition minuteRate (monthlySalary dailyHours weeklyDays : Q) : Q :=
  hourlyRate monthlySalary dailyHours weeklyDays / 60.

Definition dailyRate (monthlySalary dailyHours weeklyDays : Q) : Q :=
  hourlyRate monthlySalary dailyHours weeklyDays * dailyHours.

(** Minutes between two instants given in milliseconds: not truncated. *)
Definition elapsedMinutes (sessionStart now : Z) : Q :=
  inject_Z (now - sessionStart) / 1000 / 60.

(** The amount a session is worth before rounding. *)
Definition amount (monthlySalary dailyHours weeklyDays : Q)
    (sessionStart now : Z) : Q :=
  elapsedMinutes sessionStart now
  * (hourlyRate monthlySalary dailyHours weeklyDays / 60).

(** [r] is [x] rounded to 2 decimal places: a whole number of
    hundredths, none nearer to [x]. *)
Definition rounded_to_2_places (x r : Q) : Prop :=
  (exists n : Z, r == inject_Z n / 100) /\ Qabs (r - x) <= 1 # 200.

(** Rounding to hundredths, a tie going up. *)
Definition round_half_up (x : Q) : Q :=
  inject_Z (Qfloor (x * 100 + (1 # 2))) / 100.

(** Rounding to hundredths, a tie going away from zero. *)
Definition round_half_away (x : Q) : Q :=
  if Qle_bool 0 x then round_half_up x else - round_half_up (- x).
End Spec.

(** [x] is a finite number of value [q]. *)
Definition denotes (x : number) (q : Q) : Prop :=
  exists r : Q, Number.finite_value x = Some r /\ (r == q)%Q.

(** The number read back from [toFixed(2)], as a function of the value
    printed. *)
Definition fixed2_value (a : Q) : Q :=
  if Qle_bool Number.ten_pow_21 (Qabs a) then a else Spec.round_half_away a.

(** The filter [{ userSettingsId, isActive: true }] of [getActiveSession]. *)
Definition active_for (uid : string) (d : IncomeSessionDoc.t) : bool :=
  String.eqb (IncomeSessionDoc.userSettingsId d) uid
  && Bool.eqb (IncomeSessionDoc.isActive d) true.

(** A field after a partial update: the value supplied for it, or the
    value it had when none is supplied. *)
Definition field_merged {A : Type} (old : A) (supplied : option A) (new : A)
  : Prop :=
  match supplied with
  | Some v => new = v
  | None => new = old
  end.

(** A session after a partial update, field by field. *)
Definition session_merged (existing : IncomeSession.t)
    (updateData : PartialIncomeSession.t) (updated : IncomeSession.t) : Prop :=
  field_merged (IncomeSession.id existing)
    (PartialIncomeSession.id updateData) (IncomeSession.id updated) /\
  field_merged (IncomeSession.userSettingsId existing)
    (PartialIncomeSession.userSettingsId updateData)
    (IncomeSession.userSettingsId updated) /\
  field_merged (IncomeSession.sessionStart existing)
    (PartialIncomeSession.sessionStart updateData)
    (IncomeSession.sessionStart updated) /\
  field_merged (IncomeSession.sessionEnd existing)
    (option_map Some (PartialIncomeSession.sessionEnd updateData))
    (IncomeSession.sessionEnd updated) /\
  field_merged (IncomeSession.totalEarned existing)
    (PartialIncomeSession.totalEarned updateData)
    (IncomeSession.totalEarned updated) /\
  field_merged (IncomeSession.isActive existing)
    (PartialIncomeSession.isActive updateData)
    (IncomeSession.isActive updated).

(** The partial record the settlement writes. *)
Definition settled (now : Date) (earned : number) : PartialIncomeSession.t :=
  PartialIncomeSession.mk None None None (Some now) (Some earned) (Some false).

(** The store after a settlement. *)
Definition settled_db (db : MongoStorage.state) (id : string)
    (now : Date) (earned : number) : MongoStorage.state :=
  MongoStorage.mk (MongoStorage.UserSettingsModel db)
    (snd (Model.findByIdAndUpdate IncomeSessionDoc._id id
            (MongoStorage.set_paths (settled now earned))
            (MongoStorage.IncomeSessionModel db))).

(** ** What the validation and the handlers maintain *)

(** [n] is a number not below [lo]: finite, or [Infinity]. *)
Definition at_least (lo : Q) (n : number) : Prop :=
  n = Infinity \/ exists q : Q, denotes n q /\ (lo <= q)%Q.

(** [n] is a finite number from [lo] to [hi]. *)
Definition between (lo hi : Q) (n : number) : Prop :=
  exists q : Q, denotes n q /\ (lo <= q)%Q /\ (q <= hi)%Q.

(** The bounds of [insertUserSettingsSchema]. *)
Definition in_bounds (monthlySalary dailyHours weeklyDays : number) : Prop :=
  at_least 1 monthlySalary /\ between 1 24 dailyHours /\ between 1 7 weeklyDays.

(** Every stored configuration is within the bounds of the schema. *)
Definition all_in_bounds (db : MongoStorage.state) : Prop :=
  Forall
    (fun doc =>
       in_bounds (UserSettingsDoc.monthlySalary doc)
         (UserSettingsDoc.dailyHours doc) (UserSettingsDoc.weeklyDays doc))
    (MongoStorage.UserSettingsModel db).

(** At most one session is active for a configuration id. *)
Definition one_active_per_config (db : MongoStorage.state) : Prop :=
  forall uid : string,
    (List.length
       (List.filter (active_for uid) (MongoStorage.IncomeSessionModel db))
     <= 1)%nat.

(** No two documents of a collection share an [_id]. *)
Definition unique_ids (db : MongoStorage.state) : Prop :=
  NoDup (map IncomeSessionDoc._id (MongoStorage.IncomeSessionModel db)) /\
  NoDup (map UserSettingsDoc._id (MongoStorage.UserSettingsModel db)).

(** A [MemStorage] and a [MongoStorage] holding the same records in the
    same order, each under its id. *)
Definition same_store (st : MemStorage.state) (db : MongoStorage.state)
  : Prop :=
  MemStorage.userSettings st
  = map (fun d => (UserSettingsDoc._id d, MongoStorage.toUserSettings d))
      (MongoStorage.UserSettingsModel db) /\
  MemStorage.incomeSessions st
  = map (fun d => (IncomeSessionDoc._id d, MongoStorage.toIncomeSession d))
      (MongoStorage.IncomeSessionModel db).

(** The upper bound of a key, when it has one, is not below the lower. *)
Definition ordered (lo : Q) (hi : option (Q * string)) : Prop :=
  match hi with
  | Some (h, _) => (lo <= h)%Q
  | None => True
  end.

(** A number within the bounds of a key. *)
Definition passes (lo : Q) (hi : option (Q * string)) (n : number) : Prop :=
  n <> NaN /\ Number.ltb n (Fin lo) = false /\
  match hi with
  | Some (h, _) => Number.ltb (Fin h) n = false
  | None => True
  end.

(** The keys of a body the schema finds fault with, one entry an issue. *)
Definition issue_path (i : Zod.issue) : string :=
  match i with
  | Zod.invalid_type path => path
  | Zod.too_small path _ => path
  | Zod.too_big path _ => path
  end.

(** [l] lists some of the elements of [keys], in the order of [keys] and
    each at most once. *)
Fixpoint in_order (l keys : list string) : Prop :=
  match l, keys with
  | [], _ => True
  | _ :: _, [] => False
  | x :: l', k :: keys' =>
      (x = k /\ in_order l' keys') \/ in_order l keys'
  end.

(* ================================================================== *)
(** * Part II.  Properties                                             *)
(* ================================================================== *)

(** ** Arithmetic of finite numbers *)

Section FiniteArithmetic.
Local Open Scope Q_scope.
Import Number.

Lemma Qnum_zero_iff (q : Q) : (Qnum q = 0)%Z <-> q == 0.
Proof.
  unfold Qeq. simpl. rewrite Z.mul_1_r. tauto.
Qed.

Lemma Qnum_neg_iff (q : Q) : (Qnum q < 0)%Z <-> q < 0.
Proof.
  unfold Qlt. simpl. rewrite Z.mul_1_r. tauto.
Qed.

Lemma classify_Fin_zero (q : Q) : q == 0 -> classify (Fin q) = KZero.
Proof.
  intros H. apply Qnum_zero_iff in H. simpl.
  rewrite H. reflexivity.
Qed.

Lemma classify_Fin_num (q : Q) : ~ q == 0 -> classify (Fin q) = KNum q.
Proof.
  intros H. simpl.
  destruct (Z.eqb_spec (Qnum q) 0) as [E | E]; [| reflexivity].
  apply Qnum_zero_iff in E. contradiction.
Qed.

Lemma denotes_Fin (q : Q) : denotes (Fin q) q.
Proof. exists q. split; [reflexivity | apply Qeq_refl]. Qed.

Lemma denotes_zero_of (s : bool) : denotes (zero_of s) 0.
Proof. destruct s; exists 0; split; reflexivity. Qed.

Lemma denotes_compat (x : number) (a b : Q) :
  a == b -> denotes x a -> denotes x b.
Proof.
  intros E (r & Hr & Ha). exists r. split; [assumption |].
  rewrite Ha. assumption.
Qed.

Lemma denotes_unique (x : number) (a b : Q) :
  denotes x a -> denotes x b -> a == b.
Proof.
  intros (r & Hr & Ha) (r' & Hr' & Hb).
  rewrite Hr in Hr'. injection Hr' as <-.
  rewrite <- Ha. assumption.
Qed.

(** What a finite number is, by cases of [classify]. *)
Lemma denotes_classify (x : number) (a : Q) :
  denotes x a ->
  (classify x = KZero /\ a == 0) \/
  (exists q, classify x = KNum q /\ q == a /\ ~ q == 0).
Proof.
  intros (r & Hr & Ha).
  destruct x as [q | | | |]; simpl in Hr; try discriminate.
  - injection Hr as <-.
    destruct (Qeq_dec q 0) as [Z0 | NZ].
    + left. split; [apply classify_Fin_zero; assumption |].
      rewrite <- Ha. assumption.
    + right. exists q. split; [apply classify_Fin_num; assumption |].
      split; assumption.
  - injection Hr as <-. left. split; [reflexivity |].
    rewrite <- Ha. reflexivity.
Qed.

Lemma mul_denotes (x y : number) (a b : Q) :
  denotes x a -> denotes y b -> denotes (x * y)%num (a * b).
Proof.
  intros Hx Hy. unfold mul.
  destruct (denotes_classify Hx) as [[-> Za] | (p & -> & Ep & NZp)];
    destruct (denotes_classify Hy) as [[-> Zb] | (q & -> & Eq & NZq)].
  - apply denotes_compat with 0; [| apply denotes_zero_of].
    rewrite Za. ring.
  - apply denotes_compat with 0; [| apply denotes_zero_of].
    rewrite Za. ring.
  - apply denotes_compat with 0; [| apply denotes_zero_of].
    rewrite Zb. ring.
  - apply denotes_compat with (p * q); [| apply denotes_Fin].
    rewrite Ep, Eq. reflexivity.
Qed.

Lemma div_denotes (x y : number) (a b : Q) :
  denotes x a -> denotes y b -> ~ b == 0 -> denotes (x / y)%num (a / b).
Proof.
  intros Hx Hy NZ. unfold div.
  destruct (denotes_classify Hx) as [[-> Za] | (p & -> & Ep & NZp)];
    destruct (denotes_classify Hy) as [[-> Zb] | (q & -> & Eq & NZq)];
    try contradiction.
  - apply denotes_compat with 0; [| apply denotes_zero_of].
    rewrite Za. unfold Qdiv. ring.
  - apply denotes_compat with (p / q); [| apply denotes_Fin].
    rewrite Ep, Eq. reflexivity.
Qed.

Lemma sub_denotes (x y : number) (a b : Q) :
  denotes x a -> denotes y b -> denotes (x - y)%num (a - b).
Proof.
  intros Hx Hy. unfold sub.
  destruct (denotes_classify Hx) as [[-> Za] | (p & -> & Ep & NZp)];
    destruct (denotes_classify Hy) as [[-> Zb] | (q & -> & Eq & NZq)].
  - apply denotes_compat with 0; [| apply denotes_zero_of].
    rewrite Za, Zb. ring.
  - apply denotes_compat with (- q); [| apply denotes_Fin].
    rewrite Za, Eq. ring.
  - apply denotes_compat with p; [| apply denotes_Fin].
    rewrite Zb, Ep. ring.
  - apply denotes_compat with (p - q); [| apply denotes_Fin].
    rewrite Ep, Eq. reflexivity.
Qed.

Lemma getTime_denotes (d : Date) : denotes (getTime d) (inject_Z d).
Proof. apply denotes_Fin. Qed.

Lemma lit_denotes (q : Q) : denotes (lit q) q.
Proof. apply denotes_Fin. Qed.

End FiniteArithmetic.

(** ** Rounding *)

Section Rounding.
Local Open Scope Q_scope.
Import Number.

Lemma Math_round_denotes (x : number) (a : Q) :
  denotes x a -> denotes (Math_round x) (inject_Z (Qfloor (a + (1 # 2)))).
Proof.
  intros (r & Hr & Ha).
  destruct x as [q | | | |]; simpl in Hr; try discriminate;
    injection Hr as <-.
  - assert (E : Qfloor (q + (1 # 2)) = Qfloor (a + (1 # 2)))
      by (apply Qfloor_comp; rewrite Ha; reflexivity).
    unfold Math_round. cbv zeta. rewrite E.
    destruct (Z.eqb_spec (Qfloor (a + (1 # 2))) 0) as [Z0 | NZ].
    + rewrite Z0. apply denotes_zero_of.
    + apply denotes_Fin.
  - assert (E : Qfloor (a + (1 # 2)) = 0%Z).
    { rewrite <- (Qfloor_comp (0 + (1 # 2)) (a + (1 # 2)))
        by (rewrite Ha; reflexivity).
      reflexivity. }
    rewrite E. exists 0. split; reflexivity.
Qed.

(** [Math.round(x * 100) / 100] rounds to hundredths, a tie going up. *)
Lemma round_to_cents_denotes (x : number) (a : Q) :
  denotes x a ->
  denotes (Math_round (x * lit 100) / lit 100)%num (Spec.round_half_up a).
Proof.
  intros Hx. unfold Spec.round_half_up.
  apply div_denotes; [| apply lit_denotes | discriminate].
  apply Math_round_denotes. apply mul_denotes; [assumption | apply lit_denotes].
Qed.

Lemma round_half_up_nearest (x : Q) :
  Spec.rounded_to_2_places x (Spec.round_half_up x).
Proof.
  unfold Spec.rounded_to_2_places, Spec.round_half_up.
  split; [eexists; reflexivity |].
  pose proof (Qfloor_le (x * 100 + (1 # 2))) as Hlo.
  pose proof (Qlt_floor (x * 100 + (1 # 2))) as Hhi.
  rewrite inject_Z_plus in Hhi. change (inject_Z 1) with 1 in Hhi.
  set (n := inject_Z (Qfloor (x * 100 + (1 # 2)))) in *.
  assert (E : n / 100 - x == (n - x * 100) * (1 # 100)) by field.
  rewrite E. apply Qabs_Qle_condition. split; lra.
Qed.

Lemma rounded_to_2_places_opp (x r : Q) :
  Spec.rounded_to_2_places x r -> Spec.rounded_to_2_places (- x) (- r).
Proof.
  intros [(n & Hn) Hd]. split.
  - exists (- n)%Z. rewrite Hn, inject_Z_opp. field.
  - setoid_replace (- r - - x) with (- (r - x)) by ring.
    rewrite Qabs_opp. assumption.
Qed.

Lemma round_half_away_nearest (x : Q) :
  Spec.rounded_to_2_places x (Spec.round_half_away x).
Proof.
  unfold Spec.round_half_away.
  destruct (Qle_bool 0 x).
  - apply round_half_up_nearest.
  - pose proof (rounded_to_2_places_opp (round_half_up_nearest (- x))) as H.
    destruct H as [Hn Hd]. split; [assumption |].
    setoid_replace (- Spec.round_half_up (- x) - x)
      with (- Spec.round_half_up (- x) - - - x) by ring.
    assumption.
Qed.

Lemma round_half_up_mono (x y : Q) :
  x <= y -> Spec.round_half_up x <= Spec.round_half_up y.
Proof.
  intros H. unfold Spec.round_half_up.
  apply Qmult_le_compat_r; [| discriminate].
  rewrite <- Zle_Qle. apply Qfloor_resp_le. lra.
Qed.

Lemma round_half_up_nonneg (x : Q) : 0 <= x -> 0 <= Spec.round_half_up x.
Proof.
  intros H. apply Qle_trans with (Spec.round_half_up 0).
  - discriminate.
  - apply round_half_up_mono. assumption.
Qed.

(** On a value that is not negative the two tie rules agree. *)
Lemma round_half_away_nonneg (x : Q) :
  0 <= x -> Spec.round_half_away x = Spec.round_half_up x.
Proof.
  intros H. unfold Spec.round_half_away.
  apply Qle_bool_iff in H. rewrite H. reflexivity.
Qed.

Lemma round_half_away_neg (x : Q) :
  x < 0 -> Spec.round_half_away x = - Spec.round_half_up (- x).
Proof.
  intros H. unfold Spec.round_half_away.
  destruct (Qle_bool 0 x) eqn:E; [| reflexivity].
  apply Qle_bool_iff in E. lra.
Qed.

Lemma round_half_away_mono (x y : Q) :
  x <= y -> Spec.round_half_away x <= Spec.round_half_away y.
Proof.
  intros H.
  destruct (Qlt_le_dec x 0) as [Nx | Px]; destruct (Qlt_le_dec y 0) as [Ny | Py].
  - rewrite (round_half_away_neg Nx), (round_half_away_neg Ny).
    apply Qopp_le_compat. apply round_half_up_mono. lra.
  - rewrite (round_half_away_neg Nx), (round_half_away_nonneg Py).
    pose proof (@round_half_up_nonneg (- x)) as H1.
    pose proof (round_half_up_nonneg Py) as H2. lra.
  - lra.
  - rewrite (round_half_away_nonneg Px), (round_half_away_nonneg Py).
    apply round_half_up_mono. assumption.
Qed.

End Rounding.

(** ** [parseFloat(x.toFixed(2))] *)

Section ToFixed.
Local Open Scope Q_scope.
Import Number.

Lemma round_half_up_comp (a b : Q) :
  a == b -> Spec.round_half_up a = Spec.round_half_up b.
Proof.
  intros E. unfold Spec.round_half_up.
  rewrite (Qfloor_comp (a * 100 + (1 # 2)) (b * 100 + (1 # 2))); [reflexivity |].
  rewrite E. reflexivity.
Qed.

Lemma round_half_away_comp (a b : Q) :
  a == b -> Spec.round_half_away a = Spec.round_half_away b.
Proof.
  intros E. unfold Spec.round_half_away.
  rewrite (Qleb_comp 0 0 (Qeq_refl 0) a b E).
  rewrite (round_half_up_comp E).
  rewrite (@round_half_up_comp (- a) (- b)) by (rewrite E; reflexivity).
  reflexivity.
Qed.

Lemma fixed2_value_comp (a b : Q) :
  a == b -> fixed2_value a == fixed2_value b.
Proof.
  intros E. unfold fixed2_value.
  rewrite (Qleb_comp _ _ (Qeq_refl ten_pow_21) (Qabs a) (Qabs b))
    by (rewrite E; reflexivity).
  destruct (Qle_bool ten_pow_21 (Qabs b)); [assumption |].
  rewrite (round_half_away_comp E). reflexivity.
Qed.

Lemma toFixed2_Fin_denotes (q : Q) :
  denotes (parseFloat (toFixed2 (Fin q))) (fixed2_value q).
Proof.
  unfold toFixed2, fixed2_value.
  destruct (Qle_bool ten_pow_21 (Qabs q)); [apply denotes_Fin |].
  unfold parseFloat, Spec.round_half_away.
  destruct (Z.ltb_spec (Qnum q) 0) as [Neg | Pos].
  - apply Qnum_neg_iff in Neg.
    assert (Ab : Qabs q == - q) by (apply Qabs_neg; lra).
    assert (E : Qfloor (Qabs q * 100 + (1 # 2))
                = Qfloor (- q * 100 + (1 # 2)))
      by (apply Qfloor_comp; rewrite Ab; reflexivity).
    rewrite E.
    destruct (Qle_bool 0 q) eqn:L; [apply Qle_bool_iff in L; lra |].
    unfold Spec.round_half_up.
    destruct (Z.eqb_spec (Qfloor (- q * 100 + (1 # 2))) 0) as [Z0 | NZ].
    + rewrite Z0. exists 0. split; reflexivity.
    + apply denotes_Fin.
  - assert (Pos' : 0 <= q).
    { destruct (Qlt_le_dec q 0) as [N | P]; [| assumption].
      apply Qnum_neg_iff in N. lia. }
    assert (Ab : Qabs q == q) by (apply Qabs_pos; assumption).
    assert (E : Qfloor (Qabs q * 100 + (1 # 2))
                = Qfloor (q * 100 + (1 # 2)))
      by (apply Qfloor_comp; rewrite Ab; reflexivity).
    rewrite E.
    apply Qle_bool_iff in Pos'. rewrite Pos'.
    unfold Spec.round_half_up.
    destruct (Z.eqb_spec (Qfloor (q * 100 + (1 # 2))) 0) as [Z0 | NZ].
    + rewrite Z0. exists 0. split; reflexivity.
    + apply denotes_Fin.
Qed.

Lemma toFixed2_denotes (x : number) (a : Q) :
  denotes x a -> denotes (parseFloat (toFixed2 x)) (fixed2_value a).
Proof.
  intros (r & Hr & Ha).
  destruct x as [q | | | |]; simpl in Hr; try discriminate;
    injection Hr as <-.
  - apply denotes_compat with (fixed2_value q).
    + apply fixed2_value_comp. assumption.
    + apply toFixed2_Fin_denotes.
  - apply denotes_compat with (fixed2_value 0).
    + apply fixed2_value_comp. assumption.
    + exists 0. split; reflexivity.
Qed.

(** Below 10^21 the value read back is the value printed, rounded to
    2 decimal places. *)
Lemma fixed2_value_rounded (a : Q) :
  Qabs a < ten_pow_21 ->
  fixed2_value a = Spec.round_half_away a.
Proof.
  intros H. unfold fixed2_value.
  destruct (Qle_bool ten_pow_21 (Qabs a)) eqn:E; [| reflexivity].
  apply Qle_bool_iff in E. lra.
Qed.

Lemma fixed2_value_verbatim (a : Q) :
  ten_pow_21 <= Qabs a -> fixed2_value a = a.
Proof.
  intros H. unfold fixed2_value.
  apply Qle_bool_iff in H. rewrite H. reflexivity.
Qed.

(** 10^21 is a whole number of hundredths: rounding does not cross it. *)
Lemma round_half_up_below (a : Q) :
  a <= ten_pow_21 -> Spec.round_half_up a <= ten_pow_21.
Proof.
  intros H. apply Qle_trans with (Spec.round_half_up ten_pow_21).
  - apply round_half_up_mono. assumption.
  - vm_compute. discriminate.
Qed.

Lemma fixed2_value_mono (a b : Q) :
  a <= b -> fixed2_value a <= fixed2_value b.
Proof.
  intros H.
  assert (T : 0 < ten_pow_21) by reflexivity.
  destruct (Qlt_le_dec (Qabs a) ten_pow_21) as [Sa | La];
    destruct (Qlt_le_dec (Qabs b) ten_pow_21) as [Sb | Lb].
  - rewrite (@fixed2_value_rounded a Sa), (@fixed2_value_rounded b Sb).
    apply round_half_away_mono. assumption.
  - rewrite (@fixed2_value_rounded a Sa), (@fixed2_value_verbatim b Lb).
    apply Qabs_Qlt_condition in Sa.
    assert (Pb : ten_pow_21 <= b).
    { destruct (Qlt_le_dec b 0) as [N | P].
      - rewrite Qabs_neg in Lb by lra. lra.
      - rewrite Qabs_pos in Lb by assumption. assumption. }
    apply Qle_trans with ten_pow_21; [| assumption].
    destruct (Qlt_le_dec a 0) as [N | P].
    + rewrite (round_half_away_neg N).
      pose proof (@round_half_up_nonneg (- a)). lra.
    + rewrite (round_half_away_nonneg P).
      apply round_half_up_below. lra.
  - rewrite (@fixed2_value_verbatim a La), (@fixed2_value_rounded b Sb).
    apply Qabs_Qlt_condition in Sb.
    assert (Na : a <= - ten_pow_21).
    { destruct (Qlt_le_dec a 0) as [N | P].
      - rewrite Qabs_neg in La by lra. lra.
      - rewrite Qabs_pos in La by assumption. lra. }
    apply Qle_trans with (- ten_pow_21); [assumption |].
    destruct (Qlt_le_dec b 0) as [N | P].
    + rewrite (round_half_away_neg N).
      pose proof (@round_half_up_below (- b)). lra.
    + rewrite (round_half_away_nonneg P).
      pose proof (round_half_up_nonneg P). lra.
  - rewrite (@fixed2_value_verbatim a La), (@fixed2_value_verbatim b Lb).
    assumption.
Qed.

End ToFixed.

(** ** The rate calculation *)

Section RateCalculation.
Local Open Scope Q_scope.
Import Number.

Variable settings : UserSettings.t.
Variables m d w : Q.
Hypothesis salary : denotes (UserSettings.monthlySalary settings) m.
Hypothesis hours : denotes (UserSettings.dailyHours settings) d.
Hypothesis days : denotes (UserSettings.weeklyDays settings) w.

Lemma monthlyHours_denotes :
  denotes
    (UserSettings.dailyHours settings * UserSettings.weeklyDays settings
     * lit 4.33)%num
    (Spec.monthlyHours d w).
Proof.
  unfold Spec.monthlyHours.
  apply mul_denotes; [apply mul_denotes; assumption | apply lit_denotes].
Qed.

Hypothesis worked : ~ Spec.monthlyHours d w == 0.

Lemma hourlyRate_denotes :
  denotes
    (UserSettings.monthlySalary settings
     / (UserSettings.dailyHours settings * UserSettings.weeklyDays settings
        * lit 4.33))%num
    (Spec.hourlyRate m d w).
Proof.
  unfold Spec.hourlyRate.
  apply div_denotes; [assumption | apply monthlyHours_denotes | assumption].
Qed.

Lemma rates_denote :
  let r := Routes.rates settings in
  denotes (Rates.perMinute r) (Spec.round_half_up (Spec.minuteRate m d w)) /\
  denotes (Rates.perHour r) (Spec.round_half_up (Spec.hourlyRate m d w)) /\
  denotes (Rates.perDay r) (Spec.round_half_up (Spec.dailyRate m d w)) /\
  denotes (Rates.monthlyHours r) (Spec.round_half_up (Spec.monthlyHours d w)).
Proof.
  cbv zeta. unfold Routes.rates. cbv zeta. simpl.
  repeat split; apply round_to_cents_denotes.
  - unfold Spec.minuteRate.
    apply div_denotes; [apply hourlyRate_denotes | apply lit_denotes | discriminate].
  - apply hourlyRate_denotes.
  - unfold Spec.dailyRate.
    apply mul_denotes; [apply hourlyRate_denotes | assumption].
  - apply monthlyHours_denotes.
Qed.

End RateCalculation.

Lemma valid_worked (m d w : Q) :
  Spec.valid m d w -> (0 < Spec.monthlyHours d w)%Q.
Proof.
  intros (Hm & (Hd & _) & (Hw & _)). unfold Spec.monthlyHours.
  apply Qmult_lt_0_compat; [| reflexivity].
  apply Qmult_lt_0_compat; assumption.
Qed.

Lemma valid_hourlyRate (m d w : Q) :
  Spec.valid m d w -> (0 < Spec.hourlyRate m d w)%Q.
Proof.
  intros V. pose proof (valid_worked V) as Hh.
  destruct V as (Hm & _). unfold Spec.hourlyRate.
  apply Qlt_shift_div_l; [assumption |]. lra.
Qed.

(** The handler answers what the store holds for the id. *)
Lemma calculate_rates_found (db : MongoStorage.state) (id : string)
    (doc : UserSettingsDoc.t) :
  Model.findById UserSettingsDoc._id id (MongoStorage.UserSettingsModel db)
    = Some doc ->
  Routes.calculate_rates id db
    = (Returned
         (respond 200
            (RatesBody (Routes.rates (MongoStorage.toUserSettings doc)))),
       db).
Proof.
  intros H.
  unfold Routes.calculate_rates, MongoStorage.getUserSettings,
    try_catch, bind, gets, ret.
  rewrite H. reflexivity.
Qed.

(** ** Claims on the rate calculation *)



(** Values that are not finite stay so through the rate calculation. *)
Section NotFinite.
Import Number.

Lemma div_by_zero_not_finite (x y : number) :
  classify y = KZero -> isFinite (x / y)%num = false.
Proof.
  intros Hy. unfold div. rewrite Hy.
  destruct (classify x); try reflexivity;
    destruct (xorb (signbit x) (signbit y)); reflexivity.
Qed.

Lemma not_finite_classify (x : number) :
  isFinite x = false -> classify x = KInf \/ classify x = KNaN.
Proof.
  destruct x; simpl; intros H; try discriminate; auto.
Qed.

Lemma mul_not_finite (x y : number) :
  isFinite x = false -> isFinite (x * y)%num = false.
Proof.
  intros H. unfold mul.
  destruct (not_finite_classify x H) as [-> | ->];
    destruct (classify y); try reflexivity;
    destruct (xorb (signbit x) (signbit y)); reflexivity.
Qed.

Lemma div_not_finite (x y : number) (q : Q) :
  isFinite x = false -> classify y = KNum q -> isFinite (x / y)%num = false.
Proof.
  intros H Hy. unfold div. rewrite Hy.
  destruct (not_finite_classify x H) as [-> | ->]; try reflexivity;
    destruct (xorb (signbit x) (signbit y)); reflexivity.
Qed.

Lemma Math_round_not_finite (x : number) :
  isFinite x = false -> isFinite (Math_round x) = false.
Proof.
  destruct x; simpl; intros H; try discriminate; reflexivity.
Qed.

Lemma round_to_cents_not_finite (x : number) :
  isFinite x = false ->
  isFinite (Math_round (x * lit 100) / lit 100)%num = false.
Proof.
  intros H. apply div_not_finite with 100%Q; [| reflexivity].
  apply Math_round_not_finite. apply mul_not_finite. assumption.
Qed.

Lemma classify_zero_of (s : bool) : classify (zero_of s) = KZero.
Proof. destruct s; reflexivity. Qed.

Lemma round_to_cents_zero (x : number) :
  classify x = KZero ->
  classify (Math_round (x * lit 100) / lit 100)%num = KZero.
Proof.
  intros H.
  assert (Z1 : classify (x * lit 100)%num = KZero).
  { unfold mul. rewrite H. simpl. apply classify_zero_of. }
  assert (Z2 : classify (Math_round (x * lit 100)%num) = KZero).
  { destruct (x * lit 100)%num as [q | | | |]; try discriminate.
    - unfold Math_round.
      assert (E : (q == 0)%Q).
      { apply Qnum_zero_iff. simpl in Z1.
        destruct (Z.eqb_spec (Qnum q) 0); [assumption | discriminate]. }
      rewrite (Qfloor_comp (q + (1 # 2)) (0 + (1 # 2)))
        by (rewrite E; reflexivity).
      simpl. destruct (Qnum q <? 0)%Z; reflexivity.
    - reflexivity. }
  unfold div. rewrite Z2. simpl. apply classify_zero_of.
Qed.

End NotFinite.

(** C3, as the code has it: for the configuration
    {monthlySalary: 5000, dailyHours: 8, weeklyDays: 5} the rate
    calculation returns monthlyHours = 173.2, perHour = 28.87,
    perMinute = 0.48 and perDay = 230.95. *)
Theorem rates_of_scenario_A
    (id : string) (isHoliday : bool) (createdAt updatedAt : Date) :
  let r :=
    Routes.rates
      (UserSettings.mk id (Fin 5000) (Fin 8) (Fin 5)
         isHoliday createdAt updatedAt) in
  denotes (Rates.monthlyHours r) 173.2 /\
  denotes (Rates.perHour r) 28.87 /\
  denotes (Rates.perMinute r) 0.48 /\
  denotes (Rates.perDay r) 230.95.
Proof.
  cbv zeta.
  repeat split; (eexists; split; [vm_compute; reflexivity | reflexivity]).
Qed.

(** C3, as the specification has it (perHour = 28.86, perDay = 230.88),
    fails: 5000 / 173.2 is 28.868..., which rounds to 28.87. *)
Lemma rates_of_scenario_A_not_as_specified :
  ~ (let r := Routes.rates Example.settings in
     denotes (Rates.monthlyHours r) 173.2 /\
     denotes (Rates.perHour r) 28.86 /\
     denotes (Rates.perMinute r) 0.48 /\
     denotes (Rates.perDay r) 230.88).
Proof.
  cbv zeta. intros (_ & Hh & _).
  assert (H : denotes (Rates.perHour (Routes.rates Example.settings)) 28.87)
    by (eexists; split; [vm_compute; reflexivity | reflexivity]).
  pose proof (denotes_unique H Hh) as E. discriminate E.
Qed.

(** C4, as the code has it: for a configuration whose monthlyHours product
    (dailyHours * weeklyDays * 4.33) is zero the rate calculation makes no
    check and answers 200; perHour, perMinute and perDay are Infinity,
    -Infinity or NaN, and monthlyHours is zero. *)
Theorem calculate_rates_divides_by_zero
    (db : MongoStorage.state) (id : string) (doc : UserSettingsDoc.t) :
  Model.findById UserSettingsDoc._id id (MongoStorage.UserSettingsModel db)
    = Some doc ->
  Number.classify
    (UserSettingsDoc.dailyHours doc * UserSettingsDoc.weeklyDays doc
     * lit 4.33)%num = Number.KZero ->
  exists r : Rates.t,
    Routes.calculate_rates id db = (Returned (respond 200 (RatesBody r)), db) /\
    Number.isFinite (Rates.perHour r) = false /\
    Number.isFinite (Rates.perMinute r) = false /\
    Number.isFinite (Rates.perDay r) = false /\
    Number.classify (Rates.monthlyHours r) = Number.KZero.
Proof.
  intros Hfound Hzero.
  exists (Routes.rates (MongoStorage.toUserSettings doc)).
  split; [apply calculate_rates_found; assumption |].
  unfold Routes.rates. cbv zeta. simpl.
  pose proof
    (div_by_zero_not_finite (UserSettingsDoc.monthlySalary doc) _ Hzero) as Hh.
  repeat split.
  - apply round_to_cents_not_finite. assumption.
  - apply round_to_cents_not_finite.
    apply div_not_finite with 60%Q; [assumption | reflexivity].
  - apply round_to_cents_not_finite. apply mul_not_finite. assumption.
  - apply round_to_cents_zero. assumption.
Qed.

Lemma calculate_rates_divides_by_zero_witness :
  exists r : Rates.t,
    Routes.calculate_rates "507f1f77bcf86cd799439013" Example.db
      = (Returned (respond 200 (RatesBody r)), Example.db) /\
    Number.isFinite (Rates.perHour r) = false /\
    Number.isFinite (Rates.perMinute r) = false /\
    Number.isFinite (Rates.perDay r) = false /\
    Number.classify (Rates.monthlyHours r) = Number.KZero.
Proof.
  apply (@calculate_rates_divides_by_zero
           Example.db "507f1f77bcf86cd799439013" Example.idleDoc).
  - reflexivity.
  - reflexivity.
Defined.

(** C4, as the specification has it, fails: with no daily hours the
    calculation raises no error; it answers 200 with Infinity for both
    perMinute and perHour and NaN for perDay. *)
Lemma calculate_rates_zero_hours_is_no_error :
  Number.classify
    (UserSettingsDoc.dailyHours Example.idleDoc
     * UserSettingsDoc.weeklyDays Example.idleDoc * lit 4.33)%num
    = Number.KZero /\
  Routes.calculate_rates "507f1f77bcf86cd799439013" Example.db
    = (Returned
         (respond 200 (RatesBody (Rates.mk Infinity Infinity NaN (Fin 0)))),
       Example.db).
Proof.
  split; reflexivity.
Qed.




(** ** Collections *)

Section CollectionFacts.
Variable Doc : Type.
Variable _id : Doc -> string.
Variable update : Doc -> Doc.
Hypothesis update_keeps_id : forall d, _id (update d) = _id d.

Lemma findById_id (id : string) (c : list Doc) (d : Doc) :
  Model.findById _id id c = Some d -> _id d = id.
Proof.
  unfold Model.findById, Model.findOne. intros H.
  apply find_some in H. destruct H as [_ H].
  apply String.eqb_eq. assumption.
Qed.

Lemma findById_In (id : string) (c : list Doc) (d : Doc) :
  Model.findById _id id c = Some d -> In d c.
Proof.
  unfold Model.findById, Model.findOne. intros H.
  apply find_some in H. tauto.
Qed.

Lemma findByIdAndUpdate_found (id : string) (c : list Doc) (d : Doc) :
  Model.findById _id id c = Some d ->
  fst (Model.findByIdAndUpdate _id id update c) = Some (update d).
Proof.
  unfold Model.findById, Model.findOne.
  induction c as [| e rest IH]; simpl; [discriminate |].
  destruct (String.eqb (_id e) id).
  - intros H. injection H as ->. reflexivity.
  - intros H. specialize (IH H).
    destruct (Model.findByIdAndUpdate _id id update rest). assumption.
Qed.

Lemma findByIdAndUpdate_missing (id : string) (c : list Doc) :
  Model.findById _id id c = None ->
  Model.findByIdAndUpdate _id id update c = (None, c).
Proof.
  unfold Model.findById, Model.findOne.
  induction c as [| e rest IH]; simpl; [reflexivity |].
  destruct (String.eqb (_id e) id); [discriminate |].
  intros H. rewrite (IH H). reflexivity.
Qed.

(** The updated document is the one found under the id afterwards. *)
Lemma findById_updated (id : string) (c : list Doc) (d : Doc) :
  Model.findById _id id c = Some d ->
  Model.findById _id id (snd (Model.findByIdAndUpdate _id id update c))
    = Some (update d).
Proof.
  unfold Model.findById, Model.findOne.
  induction c as [| e rest IH]; simpl; [discriminate |].
  destruct (String.eqb (_id e) id) eqn:E.
  - intros H. injection H as ->. simpl.
    rewrite update_keeps_id, E. reflexivity.
  - intros H. specialize (IH H).
    destruct (Model.findByIdAndUpdate _id id update rest). simpl.
    rewrite E. assumption.
Qed.

(** Every other document is found as before. *)
Lemma findById_other (id other : string) (c : list Doc) :
  other <> id ->
  Model.findById _id other (snd (Model.findByIdAndUpdate _id id update c))
    = Model.findById _id other c.
Proof.
  intros N. unfold Model.findById, Model.findOne.
  induction c as [| e rest IH]; simpl; [reflexivity |].
  destruct (String.eqb (_id e) id) eqn:E.
  - simpl. rewrite update_keeps_id.
    apply String.eqb_eq in E. rewrite E.
    destruct (String.eqb_spec id other) as [<- | _]; [contradiction |].
    reflexivity.
  - destruct (Model.findByIdAndUpdate _id id update rest). simpl.
    simpl in IH. rewrite IH. reflexivity.
Qed.

Lemma findOne_none (filter : Doc -> bool) (c : list Doc) :
  (forall d, In d c -> filter d = false) -> Model.findOne filter c = None.
Proof.
  intros H. unfold Model.findOne.
  destruct (find filter c) as [d |] eqn:F; [| reflexivity].
  apply find_some in F. destruct F as [I T].
  rewrite (H d I) in T. discriminate.
Qed.

Lemma findOne_some (filter : Doc -> bool) (c : list Doc) (d : Doc) :
  In d c -> filter d = true ->
  exists d', Model.findOne filter c = Some d' /\ In d' c /\ filter d' = true.
Proof.
  intros I T. unfold Model.findOne.
  destruct (find filter c) as [d' |] eqn:F.
  - exists d'. apply find_some in F. tauto.
  - rewrite (find_none _ _ F d I) in T. discriminate.
Qed.

End CollectionFacts.

(** ** Settlement *)

Section Settlement.
Local Open Scope Q_scope.
Import Number.

Variable settings : UserSettings.t.
Variables m d w : Q.
Hypothesis salary : denotes (UserSettings.monthlySalary settings) m.
Hypothesis hours : denotes (UserSettings.dailyHours settings) d.
Hypothesis days : denotes (UserSettings.weeklyDays settings) w.
Hypothesis worked : ~ Spec.monthlyHours d w == 0.

Lemma earned_denotes (sessionStart now : Date) :
  denotes (Routes.earned settings sessionStart now)
    (fixed2_value (Spec.amount m d w sessionStart now)).
Proof.
  unfold Routes.earned. cbv zeta.
  apply toFixed2_denotes. unfold Spec.amount.
  apply mul_denotes.
  - unfold Spec.elapsedMinutes.
    apply div_denotes; [| apply lit_denotes | discriminate].
    apply div_denotes; [| apply lit_denotes | discriminate].
    apply denotes_compat with (inject_Z now - inject_Z sessionStart).
    + unfold Zminus. rewrite inject_Z_plus, inject_Z_opp. ring.
    + apply sub_denotes; apply getTime_denotes.
  - apply div_denotes; [| apply lit_denotes | discriminate].
    apply hourlyRate_denotes; assumption.
Qed.

End Settlement.

Lemma hourlyRate_worked (m d w : Q) :
  (0 < Spec.hourlyRate m d w)%Q -> ~ (Spec.monthlyHours d w == 0)%Q.
Proof.
  unfold Spec.hourlyRate. intros P Z0. rewrite Z0 in P.
  unfold Qdiv in P. change (/ 0)%Q with 0%Q in P. lra.
Qed.

Lemma amount_mono (m d w : Q) (sessionStart t1 t2 : Z) :
  (0 < Spec.hourlyRate m d w)%Q -> (t1 <= t2)%Z ->
  (Spec.amount m d w sessionStart t1 <= Spec.amount m d w sessionStart t2)%Q.
Proof.
  intros Phr H.
  unfold Spec.amount, Spec.elapsedMinutes.
  set (hr := Spec.hourlyRate m d w) in *.
  assert (E : (inject_Z (t1 - sessionStart) <= inject_Z (t2 - sessionStart))%Q)
    by (rewrite <- Zle_Qle; lia).
  assert (S : forall x : Q, (x / 1000 / 60 * (hr / 60) == x * (hr / 3600000))%Q)
    by (intros x; field).
  rewrite !S. apply Qmult_le_compat_r; [assumption |].
  apply Qlt_le_weak. apply Qlt_shift_div_l; [reflexivity | lra].
Qed.

Lemma amount_negative (m d w : Q) (sessionStart now : Z) :
  (0 < Spec.hourlyRate m d w)%Q -> (now < sessionStart)%Z ->
  (Spec.amount m d w sessionStart now < 0)%Q.
Proof.
  intros Phr H.
  unfold Spec.amount, Spec.elapsedMinutes.
  set (hr := Spec.hourlyRate m d w) in *.
  assert (E : (inject_Z (now - sessionStart) < 0)%Q).
  { change 0%Q with (inject_Z 0). rewrite <- Zlt_Qlt. lia. }
  assert (S : forall x : Q, (x / 1000 / 60 * (hr / 60) == x * hr / 3600000)%Q)
    by (intros x; field).
  rewrite S.
  apply Qlt_shift_div_r; [reflexivity |].
  nra.
Qed.

Lemma set_paths_keeps_id (updateData : PartialIncomeSession.t)
    (doc : IncomeSessionDoc.t) :
  IncomeSessionDoc._id (MongoStorage.set_paths updateData doc)
  = IncomeSessionDoc._id doc.
Proof. reflexivity. Qed.

(** What the handler does with an active session whose configuration is
    in the store. *)
Lemma delete_income_session_settles
    (db : MongoStorage.state) (now : Date) (id : string)
    (doc : IncomeSessionDoc.t) (sdoc : UserSettingsDoc.t) :
  Model.findById IncomeSessionDoc._id id (MongoStorage.IncomeSessionModel db)
    = Some doc ->
  IncomeSessionDoc.isActive doc = true ->
  Model.findById UserSettingsDoc._id (IncomeSessionDoc.userSettingsId doc)
    (MongoStorage.UserSettingsModel db) = Some sdoc ->
  let earned :=
    Routes.earned (MongoStorage.toUserSettings sdoc)
      (IncomeSessionDoc.sessionStart doc) now in
  Routes.delete_income_session now id db
  = (Returned
       (respond 200
          (Session
             (Some
                (MongoStorage.toIncomeSession
                   (MongoStorage.set_paths (settled now earned) doc))))),
     settled_db db id now earned).
Proof.
  intros Hs Ha Hu earned.
  unfold Routes.delete_income_session, MongoStorage.getIncomeSessionById,
    MongoStorage.getUserSettingsById, MongoStorage.getUserSettings,
    MongoStorage.updateIncomeSession, try_catch, bind, gets, ret.
  rewrite Hs. simpl. rewrite Ha. simpl. rewrite Hu.
  fold earned. fold (settled now earned).
  pose proof
    (@findByIdAndUpdate_found _ IncomeSessionDoc._id
       (MongoStorage.set_paths (settled now earned)) id
       (MongoStorage.IncomeSessionModel db) doc Hs) as F.
  unfold settled_db.
  destruct (Model.findByIdAndUpdate IncomeSessionDoc._id id
              (MongoStorage.set_paths (settled now earned))
              (MongoStorage.IncomeSessionModel db)) as [found c].
  simpl in F. rewrite F. reflexivity.
Qed.

(** ** Claims on the settlement *)



(** Scenario B: the running session of the example store, ended one hour
    after its start, has earned 28.87. *)
Example settlement_of_scenario_B :
  exists (updated : IncomeSession.t) (db' : MongoStorage.state),
    Routes.delete_income_session 7200000 "507f1f77bcf86cd799439012" Example.db
      = (Returned (respond 200 (Session (Some updated))), db') /\
    denotes (IncomeSession.totalEarned updated) 28.87.
Proof.
  do 2 eexists. split; [vm_compute; reflexivity |].
  eexists. split; reflexivity.
Qed.







(** ** Claims on the session store *)

Lemma eqb_nonempty (uid : string) : uid <> "" -> String.eqb uid "" = false.
Proof.
  intros N. destruct (String.eqb_spec uid ""); [contradiction | reflexivity].
Qed.

Lemma active_for_true (uid : string) (d : IncomeSessionDoc.t) :
  active_for uid d = true <->
  IncomeSessionDoc.userSettingsId d = uid /\ IncomeSessionDoc.isActive d = true.
Proof.
  unfold active_for. rewrite andb_true_iff, String.eqb_eq, Bool.eqb_true_iff.
  tauto.
Qed.

(** C8: the start-session operation is get-or-create.  For a
    configuration id (a non-empty string): if the store holds an active
    session for the id, one such session is answered and the store is left
    as it was, so no session is created; otherwise a session is created
    with sessionStart = now, totalEarned = 0 and isActive = true, appended
    to the store and answered.  [oid] is the fresh ObjectId of the created
    session. *)
Theorem post_income_session_get_or_create
    (db : MongoStorage.state) (oid : string) (now : Date) (uid : string) :
  uid <> "" ->
  Model.findById IncomeSessionDoc._id oid (MongoStorage.IncomeSessionModel db)
    = None ->
  ((exists d,
      In d (MongoStorage.IncomeSessionModel db) /\
      IncomeSessionDoc.userSettingsId d = uid /\
      IncomeSessionDoc.isActive d = true) ->
   exists existing,
     In existing (MongoStorage.IncomeSessionModel db) /\
     IncomeSessionDoc.userSettingsId existing = uid /\
     IncomeSessionDoc.isActive existing = true /\
     Routes.post_income_session oid now (Some uid) db
       = (Returned
            (respond 200
               (Session (Some (MongoStorage.toIncomeSession existing)))),
          db)) /\
  ((forall d,
      In d (MongoStorage.IncomeSessionModel db) ->
      IncomeSessionDoc.userSettingsId d = uid ->
      IncomeSessionDoc.isActive d = false) ->
   Routes.post_income_session oid now (Some uid) db
     = (Returned
          (respond 200
             (Session (Some (IncomeSession.mk oid uid now None (Fin 0) true)))),
        MongoStorage.mk (MongoStorage.UserSettingsModel db)
          (MongoStorage.IncomeSessionModel db
           ++ [IncomeSessionDoc.mk oid uid now None (Fin 0) true])%list)).
Proof.
  intros Nonempty Fresh. split.
  - intros (d & I & U & A).
    destruct (@findOne_some _ (active_for uid)
                (MongoStorage.IncomeSessionModel db) d I)
      as (e & F & Ie & Te).
    { apply active_for_true. split; assumption. }
    apply active_for_true in Te. destruct Te as [Ue Ae].
    exists e. repeat (split; [assumption |]).
    unfold Routes.post_income_session, MongoStorage.getActiveSession,
      try_catch, bind, gets, ret.
    rewrite (eqb_nonempty Nonempty).
    fold (active_for uid). rewrite F. reflexivity.
  - intros None_active.
    assert (F : Model.findOne (active_for uid)
                  (MongoStorage.IncomeSessionModel db) = None).
    { apply findOne_none. intros d I.
      destruct (active_for uid d) eqn:T; [| reflexivity].
      apply active_for_true in T. destruct T as [U A].
      rewrite (None_active d I U) in A. discriminate. }
    unfold Routes.post_income_session, MongoStorage.getActiveSession,
      MongoStorage.createIncomeSession, Model.save,
      MongoStorage.new_IncomeSessionModel,
      try_catch, bind, gets, ret, modify.
    rewrite (eqb_nonempty Nonempty).
    fold (active_for uid). rewrite F. simpl.
    rewrite Fresh. reflexivity.
Qed.

Lemma post_income_session_get_or_create_witness :
  ((exists d,
      In d (MongoStorage.IncomeSessionModel Example.db) /\
      IncomeSessionDoc.userSettingsId d = "507f1f77bcf86cd799439011" /\
      IncomeSessionDoc.isActive d = true) ->
   exists existing,
     In existing (MongoStorage.IncomeSessionModel Example.db) /\
     IncomeSessionDoc.userSettingsId existing = "507f1f77bcf86cd799439011" /\
     IncomeSessionDoc.isActive existing = true /\
     Routes.post_income_session "507f1f77bcf86cd799439015" 7200000
       (Some "507f1f77bcf86cd799439011") Example.db
       = (Returned
            (respond 200
               (Session (Some (MongoStorage.toIncomeSession existing)))),
          Example.db)) /\
  ((forall d,
      In d (MongoStorage.IncomeSessionModel Example.db) ->
      IncomeSessionDoc.userSettingsId d = "507f1f77bcf86cd799439011" ->
      IncomeSessionDoc.isActive d = false) ->
   Routes.post_income_session "507f1f77bcf86cd799439015" 7200000
     (Some "507f1f77bcf86cd799439011") Example.db
     = (Returned
          (respond 200
             (Session
                (Some
                   (IncomeSession.mk "507f1f77bcf86cd799439015"
                      "507f1f77bcf86cd799439011" 7200000 None (Fin 0) true)))),
        MongoStorage.mk (MongoStorage.UserSettingsModel Example.db)
          (MongoStorage.IncomeSessionModel Example.db
           ++ [IncomeSessionDoc.mk "507f1f77bcf86cd799439015"
                 "507f1f77bcf86cd799439011" 7200000 None (Fin 0) true])%list)).
Proof.
  apply (@post_income_session_get_or_create
           Example.db "507f1f77bcf86cd799439015" 7200000
           "507f1f77bcf86cd799439011").
  - discriminate.
  - reflexivity.
Defined.

(** Scenario C: a session is running for the configuration; starting
    another answers the running one and the store is as before. *)
Example start_while_running :
  Routes.post_income_session "507f1f77bcf86cd799439015" 7200000
    (Some "507f1f77bcf86cd799439011") Example.db
  = (Returned
       (respond 200
          (Session (Some (MongoStorage.toIncomeSession Example.runningDoc)))),
     Example.db).
Proof. reflexivity. Qed.

(** With no session in the store one is created. *)
Example start_first_session :
  Routes.post_income_session "507f1f77bcf86cd799439015" 7200000
    (Some "507f1f77bcf86cd799439011") Example.fresh_db
  = (Returned
       (respond 200
          (Session
             (Some
                (IncomeSession.mk "507f1f77bcf86cd799439015"
                   "507f1f77bcf86cd799439011" 7200000 None (Fin 0) true)))),
     MongoStorage.mk [Example.settingsDoc; Example.idleDoc]
       [IncomeSessionDoc.mk "507f1f77bcf86cd799439015"
          "507f1f77bcf86cd799439011" 7200000 None (Fin 0) true]).
Proof. reflexivity. Qed.

(** A request without a configuration id is refused before the store is
    looked at. *)
Example start_without_id (db : MongoStorage.state) (oid : string) (now : Date) :
  Routes.post_income_session oid now None db
  = (Returned (respond 400 (Message "User settings ID is required")), db) /\
  Routes.post_income_session oid now (Some "") db
  = (Returned (respond 400 (Message "User settings ID is required")), db).
Proof. split; reflexivity. Qed.

(** C9: ending a session that does not exist, or whose isActive is
    already false, answers 404 "Active session not found" and the store is
    left as it was: nothing is settled unless the session is active. *)
Theorem delete_income_session_requires_active
    (db : MongoStorage.state) (now : Date) (id : string) :
  (forall doc,
     Model.findById IncomeSessionDoc._id id
       (MongoStorage.IncomeSessionModel db) = Some doc ->
     IncomeSessionDoc.isActive doc = false) ->
  Routes.delete_income_session now id db
  = (Returned (respond 404 (Message "Active session not found")), db).
Proof.
  intros Inactive.
  unfold Routes.delete_income_session, MongoStorage.getIncomeSessionById,
    try_catch, bind, gets, ret.
  destruct (Model.findById IncomeSessionDoc._id id
              (MongoStorage.IncomeSessionModel db)) as [doc |] eqn:F.
  - simpl. rewrite (Inactive doc eq_refl). reflexivity.
  - reflexivity.
Qed.

Lemma delete_income_session_requires_active_witness :
  Routes.delete_income_session 7200000 "507f1f77bcf86cd799439014" Example.db
  = (Returned (respond 404 (Message "Active session not found")), Example.db).
Proof.
  apply (@delete_income_session_requires_active
           Example.db 7200000 "507f1f77bcf86cd799439014").
  intros doc H. vm_compute in H. injection H as <-. reflexivity.
Defined.

(** An id the store does not hold is answered the same way. *)
Example end_unknown_session :
  Routes.delete_income_session 7200000 "no such session" Example.db
  = (Returned (respond 404 (Message "Active session not found")), Example.db).
Proof. reflexivity. Qed.

(** The other direction: when the handler answers anything else, or the
    store is no longer the same, the session was found active. *)
Lemma delete_income_session_acts_on_active
    (db db' : MongoStorage.state) (now : Date) (id : string) (r : response) :
  Routes.delete_income_session now id db = (Returned r, db') ->
  r <> respond 404 (Message "Active session not found") \/ db' <> db ->
  exists doc,
    Model.findById IncomeSessionDoc._id id
      (MongoStorage.IncomeSessionModel db) = Some doc /\
    IncomeSessionDoc.isActive doc = true.
Proof.
  unfold Routes.delete_income_session, MongoStorage.getIncomeSessionById,
    try_catch, bind, gets, ret.
  destruct (Model.findById IncomeSessionDoc._id id
              (MongoStorage.IncomeSessionModel db)) as [doc |] eqn:F.
  - destruct (IncomeSessionDoc.isActive doc) eqn:A.
    + intros _ _. exists doc. split; [reflexivity | assumption].
    + simpl. rewrite A. simpl. intros Run Acted.
      injection Run as <- <-. destruct Acted as [N | N]; contradiction.
  - intros Run Acted.
    injection Run as <- <-. destruct Acted as [N | N]; contradiction.
Qed.

(** ** Partial updates *)

Section JsMapFacts.
Variable V : Type.

Lemma get_set_same (k : string) (v : V) (m : JsMap.t V) :
  JsMap.get k (JsMap.set k v m) = Some v.
Proof.
  induction m as [| [k' v'] rest IH]; simpl.
  - rewrite String.eqb_refl. reflexivity.
  - destruct (String.eqb k' k) eqn:E; simpl; rewrite E; [reflexivity | exact IH].
Qed.

Lemma get_set_other (k other : string) (v : V) (m : JsMap.t V) :
  other <> k -> JsMap.get other (JsMap.set k v m) = JsMap.get other m.
Proof.
  intros N. induction m as [| [k' v'] rest IH]; simpl.
  - destruct (String.eqb_spec k other) as [E | _]; [| reflexivity].
    symmetry in E. contradiction.
  - destruct (String.eqb k' k) eqn:E; simpl.
    + apply String.eqb_eq in E. subst k'.
      destruct (String.eqb_spec k other) as [E' | _]; [| reflexivity].
      symmetry in E'. contradiction.
    + rewrite IH. reflexivity.
Qed.
End JsMapFacts.

Lemma spread_merged (existing : IncomeSession.t)
    (updateData : PartialIncomeSession.t) :
  session_merged existing updateData (MemStorage.spread existing updateData).
Proof.
  unfold session_merged, field_merged, MemStorage.spread, overridden.
  destruct updateData as [i u s e t a]; simpl.
  destruct i, u, s, e, t, a; simpl; repeat split.
Qed.



(** [MemStorage] creates a session the way [MongoStorage] does: started
    at [now], with nothing earned, active, and found under its id. *)
Lemma mem_createIncomeSession
    (st : MemStorage.state) (uuid : string) (now : Date) (uid : string) :
  exists st' : MemStorage.state,
    MemStorage.createIncomeSession uuid now (InsertIncomeSession.mk uid) st
      = (Returned (IncomeSession.mk uuid uid now None (Fin 0) true), st') /\
    JsMap.get uuid (MemStorage.incomeSessions st')
      = Some (IncomeSession.mk uuid uid now None (Fin 0) true) /\
    MemStorage.userSettings st' = MemStorage.userSettings st.
Proof.
  eexists. split; [reflexivity |]. simpl.
  split; [apply get_set_same | reflexivity].
Qed.

Example mem_active_session :
  MemStorage.getActiveSession "507f1f77bcf86cd799439011" Example.mem
  = (Returned (Some (MongoStorage.toIncomeSession Example.runningDoc)),
     Example.mem).
Proof. reflexivity. Qed.

(** ** The scenarios in binary64

    The figures of the scenarios above, computed on primitive floats: the
    rounding of binary64 arithmetic does not change them. *)

Example binary64_scenario_A :
  Binary64.rates 5000 8 5 = (0.48, 28.87, 230.95, 173.2)%float.
Proof. vm_compute. reflexivity. Qed.

Example binary64_zero_hours :
  Binary64.rates 5000 0 5 = (infinity, infinity, nan, 0%float).
Proof. vm_compute. reflexivity. Qed.

Example binary64_product_off :
  let '(_, perHour, _, monthlyHours) := Binary64.rates 5000 8 5 in
  PrimFloat.ltb 0.01 (PrimFloat.abs (perHour * monthlyHours - 5000))%float
  = true.
Proof. vm_compute. reflexivity. Qed.

Example binary64_scenario_B :
  Binary64.earned 5000 8 5 3600000 7200000 = 28.87%float.
Proof. vm_compute. reflexivity. Qed.

Example binary64_before_start :
  Binary64.earned 5000 8 5 3600000 0 = (-28.87)%float.
Proof. vm_compute. reflexivity. Qed.

Example binary64_one_millisecond :
  Binary64.earned 5000 8 5 0 0 = 0%float /\
  Binary64.earned 5000 8 5 0 1 = 0%float.
Proof. split; vm_compute; reflexivity. Qed.

(* ================================================================== *)
(** * Part III.  The rest of the handlers and of the stores            *)
(* ================================================================== *)

Unset Implicit Arguments.
Local Open Scope list_scope.

(** ** Comparison of numbers *)

Section Comparison.
Local Open Scope Q_scope.
Import Number.

Lemma ltb_not_below (n : number) (lo : Q) :
  n <> NaN -> ltb n (Fin lo) = false -> at_least lo n.
Proof.
  intros NN H. destruct n as [q | | | |]; simpl in H.
  - right. exists q. split; [apply denotes_Fin |].
    apply negb_false_iff in H. apply Qle_bool_iff. assumption.
  - right. exists 0. split; [exists 0; split; reflexivity |].
    apply negb_false_iff in H. apply Qle_bool_iff. assumption.
  - left. reflexivity.
  - discriminate.
  - contradiction.
Qed.

Lemma denotes_not_NaN (n : number) (q : Q) : denotes n q -> n <> NaN.
Proof. intros (r & Hr & _) ->. discriminate. Qed.

Lemma denotes_ltb (n : number) (q lo : Q) :
  denotes n q -> ltb n (Fin lo) = negb (Qle_bool lo q).
Proof.
  intros (r & Hr & E).
  destruct n as [p | | | |]; simpl in Hr; try discriminate;
    injection Hr as <-; simpl;
    rewrite (Qleb_comp lo lo (Qeq_refl lo) _ q E); reflexivity.
Qed.

Lemma denotes_gtb (n : number) (q hi : Q) :
  denotes n q -> ltb (Fin hi) n = negb (Qle_bool q hi).
Proof.
  intros (r & Hr & E).
  destruct n as [p | | | |]; simpl in Hr; try discriminate;
    injection Hr as <-; simpl;
    rewrite (Qleb_comp _ q E hi hi (Qeq_refl hi)); reflexivity.
Qed.

Lemma not_below_ltb (n : number) (q lo : Q) :
  denotes n q -> lo <= q -> ltb n (Fin lo) = false.
Proof.
  intros D L. rewrite (denotes_ltb n q lo D).
  apply Qle_bool_iff in L. rewrite L. reflexivity.
Qed.

Lemma not_above_ltb (n : number) (q hi : Q) :
  denotes n q -> q <= hi -> ltb (Fin hi) n = false.
Proof.
  intros D L. rewrite (denotes_gtb n q hi D).
  apply Qle_bool_iff in L. rewrite L. reflexivity.
Qed.

(** A number is not both below [lo] and above [hi]. *)
Lemma ltb_exclusive (n : number) (lo hi : Q) :
  lo <= hi -> ltb n (Fin lo) = true -> ltb (Fin hi) n = true -> False.
Proof.
  intros L A B. destruct n as [q | | | |]; simpl in A, B; try discriminate.
  - apply negb_true_iff in A. apply negb_true_iff in B.
    destruct (Qlt_le_dec q lo) as [Lt | Ge].
    + assert (C : q <= hi) by lra.
      apply Qle_bool_iff in C. congruence.
    + apply Qle_bool_iff in Ge. congruence.
  - apply negb_true_iff in A. apply negb_true_iff in B.
    destruct (Qlt_le_dec 0 lo) as [Lt | Ge].
    + assert (C : 0 <= hi) by lra.
      apply Qle_bool_iff in C. congruence.
    + apply Qle_bool_iff in Ge. congruence.
Qed.

End Comparison.

(** ** Validation of a body *)

Section Validation.
Local Open Scope Q_scope.
Import Number.

Lemma bounds_nil (path : string) (lo : Q) (lm : string)
    (hi : option (Q * string)) (n : number) :
  Zod.bounds path lo lm hi n = [] <->
  ltb n (Fin lo) = false /\
  match hi with
  | Some (h, _) => ltb (Fin h) n = false
  | None => True
  end.
Proof.
  unfold Zod.bounds.
  destruct (ltb n (Fin lo)); destruct hi as [[h hm] |];
    try (destruct (ltb (Fin h) n)); simpl;
    intuition congruence.
Qed.

Lemma bounds_paths (path : string) (lo : Q) (lm : string)
    (hi : option (Q * string)) (n : number) :
  ordered lo hi ->
  map issue_path (Zod.bounds path lo lm hi n) = [] \/
  map issue_path (Zod.bounds path lo lm hi n) = [path].
Proof.
  intros O. unfold Zod.bounds.
  destruct (ltb n (Fin lo)) eqn:A; destruct hi as [[h hm] |];
    try (destruct (ltb (Fin h) n) eqn:B); simpl; auto.
  exfalso. apply (ltb_exclusive n lo h O A B).
Qed.

Lemma required_number_valid (path : string) (lo : Q) (lm : string)
    (hi : option (Q * string)) (input : option Json.value)
    (v : option number) :
  Zod.required_number path lo lm hi input = ([], v) ->
  exists n, input = Some (Json.Num n) /\ v = Some n /\ passes lo hi n.
Proof.
  unfold Zod.required_number.
  destruct input as [[| b | n | | |] |]; try discriminate.
  destruct n as [q | | | |]; try discriminate;
    intros H; simpl in H; injection H as B <-;
    apply bounds_nil in B; eexists;
    (split; [reflexivity |]); (split; [reflexivity |]);
    (split; [discriminate | exact B]).
Qed.

Lemma required_number_passes (path : string) (lo : Q) (lm : string)
    (hi : option (Q * string)) (n : number) :
  passes lo hi n ->
  Zod.required_number path lo lm hi (Some (Json.Num n)) = ([], Some n).
Proof.
  intros (NN & B). apply (bounds_nil path lo lm hi n) in B.
  unfold Zod.required_number. rewrite B.
  destruct n; try reflexivity. contradiction.
Qed.

Lemma required_number_paths (path : string) (lo : Q) (lm : string)
    (hi : option (Q * string)) (input : option Json.value) :
  ordered lo hi ->
  let (e, v) := Zod.required_number path lo lm hi input in
  (e = [] /\ v <> None) \/ map issue_path e = [path].
Proof.
  intros O. unfold Zod.required_number.
  destruct input as [[| b | n | | |] |]; simpl; auto.
  destruct n as [q | | | |]; simpl; auto;
    match goal with
    | |- context [Zod.bounds path lo lm hi ?x] =>
        destruct (bounds_paths path lo lm hi x O) as [E | E];
        [ left; split;
          [ destruct (Zod.bounds path lo lm hi x);
            [reflexivity | discriminate E]
          | discriminate ]
        | right; exact E ]
    end.
Qed.

Lemma optional_number_valid (path : string) (lo : Q) (lm : string)
    (hi : option (Q * string)) (input : option Json.value)
    (v : option number) :
  Zod.optional_number path lo lm hi input = ([], v) ->
  (input = None /\ v = None) \/
  exists n, input = Some (Json.Num n) /\ v = Some n /\ passes lo hi n.
Proof.
  unfold Zod.optional_number. destruct input as [j |].
  - intros H. right. apply required_number_valid in H. exact H.
  - intros H. injection H as <-. left. split; reflexivity.
Qed.

Lemma optional_number_paths (path : string) (lo : Q) (lm : string)
    (hi : option (Q * string)) (input : option Json.value) :
  ordered lo hi ->
  let (e, v) := Zod.optional_number path lo lm hi input in
  e = [] \/ map issue_path e = [path].
Proof.
  intros O. unfold Zod.optional_number. destruct input as [j |]; [| auto].
  pose proof (required_number_paths path lo lm hi (Some j) O) as H.
  destruct (Zod.required_number path lo lm hi (Some j)) as [e v].
  destruct H as [[E _] | E]; auto.
Qed.

Lemma passes_at_least (lo : Q) (n : number) :
  passes lo None n -> at_least lo n.
Proof.
  intros (NN & L & _). apply ltb_not_below; assumption.
Qed.

Lemma passes_between (lo hi : Q) (m : string) (n : number) :
  passes lo (Some (hi, m)) n -> between lo hi n.
Proof.
  intros (NN & L & H).
  destruct (ltb_not_below n lo NN L) as [-> | (q & D & Lq)]; [discriminate H |].
  exists q. split; [assumption |]. split; [assumption |].
  rewrite (denotes_gtb n q hi D) in H. apply negb_false_iff in H.
  apply Qle_bool_iff. assumption.
Qed.

Lemma between_passes (lo hi : Q) (m : string) (n : number) :
  between lo hi n -> passes lo (Some (hi, m)) n.
Proof.
  intros (q & D & L & H). split; [apply (denotes_not_NaN n q D) |].
  split; [apply (not_below_ltb n q lo D L) | apply (not_above_ltb n q hi D H)].
Qed.

(** The paths of the issues of four keys parsed one after the other. *)
Lemma four_in_order (k1 k2 k3 k4 : string) (p1 p2 p3 p4 : list string) :
  p1 = [] \/ p1 = [k1] -> p2 = [] \/ p2 = [k2] ->
  p3 = [] \/ p3 = [k3] -> p4 = [] \/ p4 = [k4] ->
  in_order (p1 ++ p2 ++ p3 ++ p4) [k1; k2; k3; k4].
Proof.
  intros [-> | ->] [-> | ->] [-> | ->] [-> | ->]; simpl; tauto.
Qed.

End Validation.

Lemma boolean_default_valid (path : string) (default : bool)
    (input : option Json.value) (b : bool) :
  Zod.boolean_default path default input = ([], b) ->
  (input = None /\ b = default) \/ input = Some (Json.Boolean b).
Proof.
  unfold Zod.boolean_default.
  destruct input as [[| c | n | | |] |]; intros H; try discriminate H;
    injection H as <-; auto.
Qed.

Lemma boolean_default_paths (path : string) (default : bool)
    (input : option Json.value) :
  fst (Zod.boolean_default path default input) = [] \/
  map issue_path (fst (Zod.boolean_default path default input)) = [path].
Proof.
  destruct input as [[| c | n | | |] |]; simpl; auto.
Qed.

Lemma optional_boolean_valid (path : string) (input : option Json.value)
    (b : option bool) :
  Zod.optional_boolean path input = ([], b) ->
  (input = None /\ b = None) \/
  exists c, input = Some (Json.Boolean c) /\ b = Some c.
Proof.
  unfold Zod.optional_boolean.
  destruct input as [[| c | n | | |] |]; intros H; try discriminate H;
    injection H as <-; eauto.
Qed.

Lemma optional_boolean_paths (path : string) (input : option Json.value) :
  fst (Zod.optional_boolean path input) = [] \/
  map issue_path (fst (Zod.optional_boolean path input)) = [path].
Proof.
  destruct input as [[| c | n | | |] |]; simpl; auto.
Qed.

(** What the schema lets through, key by key. *)
Lemma parse_valid_passes
    (body : SettingsBody.t) (v : InsertUserSettings.t) :
  Zod.insertUserSettingsSchema body = Zod.Valid v ->
  exists f : SettingsBody.fields,
    body = Some f /\
    SettingsBody.monthlySalary f
      = Some (Json.Num (InsertUserSettings.monthlySalary v)) /\
    SettingsBody.dailyHours f
      = Some (Json.Num (InsertUserSettings.dailyHours v)) /\
    SettingsBody.weeklyDays f
      = Some (Json.Num (InsertUserSettings.weeklyDays v)) /\
    passes 1 None (InsertUserSettings.monthlySalary v) /\
    passes 1 (Some (24%Q, Zod.dailyHours_max))
      (InsertUserSettings.dailyHours v) /\
    passes 1 (Some (7%Q, Zod.weeklyDays_max))
      (InsertUserSettings.weeklyDays v) /\
    ((SettingsBody.isHoliday f = None /\ InsertUserSettings.isHoliday v = false)
     \/ SettingsBody.isHoliday f
        = Some (Json.Boolean (InsertUserSettings.isHoliday v))).
Proof.
  unfold Zod.insertUserSettingsSchema.
  destruct body as [f |]; [| discriminate].
  destruct (Zod.required_number "monthlySalary" 1 Zod.monthlySalary_min None
              (SettingsBody.monthlySalary f)) as [e1 v1] eqn:R1.
  destruct (Zod.required_number "dailyHours" 1 Zod.dailyHours_min
              (Some (24%Q, Zod.dailyHours_max))
              (SettingsBody.dailyHours f)) as [e2 v2] eqn:R2.
  destruct (Zod.required_number "weeklyDays" 1 Zod.weeklyDays_min
              (Some (7%Q, Zod.weeklyDays_max))
              (SettingsBody.weeklyDays f)) as [e3 v3] eqn:R3.
  destruct (Zod.boolean_default "isHoliday" false (SettingsBody.isHoliday f))
    as [e4 b] eqn:R4.
  destruct (e1 ++ e2 ++ e3 ++ e4)%list eqn:E; [| discriminate].
  apply app_eq_nil in E. destruct E as [-> E].
  apply app_eq_nil in E. destruct E as [-> E].
  apply app_eq_nil in E. destruct E as [-> ->].
  apply required_number_valid in R1. destruct R1 as (m & I1 & -> & P1).
  apply required_number_valid in R2. destruct R2 as (d & I2 & -> & P2).
  apply required_number_valid in R3. destruct R3 as (w & I3 & -> & P3).
  apply boolean_default_valid in R4.
  intros H. injection H as <-. simpl.
  exists f. repeat (split; [assumption || reflexivity |]).
  destruct R4 as [[I4 ->] | I4]; auto.
Qed.

Lemma parse_valid_in_bounds
    (body : SettingsBody.t) (v : InsertUserSettings.t) :
  Zod.insertUserSettingsSchema body = Zod.Valid v ->
  in_bounds (InsertUserSettings.monthlySalary v)
    (InsertUserSettings.dailyHours v) (InsertUserSettings.weeklyDays v).
Proof.
  intros P. apply parse_valid_passes in P.
  destruct P as (f & _ & _ & _ & _ & Pm & Pd & Pw & _).
  split; [apply passes_at_least; exact Pm |].
  split; eapply passes_between; eassumption.
Qed.

(** X1: a body [insertUserSettingsSchema] accepts is an object whose
    monthlySalary, dailyHours and weeklyDays are numbers with
    monthlySalary >= 1, 1 <= dailyHours <= 24 and 1 <= weeklyDays <= 7;
    the parsed value carries those numbers, and isHoliday as given, or
    false when the key is absent. *)
Theorem parse_accepts_within_bounds_only
    (body : SettingsBody.t) (v : InsertUserSettings.t) :
  Zod.insertUserSettingsSchema body = Zod.Valid v ->
  exists f : SettingsBody.fields,
    body = Some f /\
    SettingsBody.monthlySalary f
      = Some (Json.Num (InsertUserSettings.monthlySalary v)) /\
    SettingsBody.dailyHours f
      = Some (Json.Num (InsertUserSettings.dailyHours v)) /\
    SettingsBody.weeklyDays f
      = Some (Json.Num (InsertUserSettings.weeklyDays v)) /\
    in_bounds (InsertUserSettings.monthlySalary v)
      (InsertUserSettings.dailyHours v) (InsertUserSettings.weeklyDays v) /\
    ((SettingsBody.isHoliday f = None /\ InsertUserSettings.isHoliday v = false)
     \/ SettingsBody.isHoliday f
        = Some (Json.Boolean (InsertUserSettings.isHoliday v))).
Proof.
  intros P.
  destruct (parse_valid_passes body v P)
    as (f & Eb & Em & Ed & Ew & Pm & Pd & Pw & H).
  exists f.
  split; [exact Eb |]. split; [exact Em |].
  split; [exact Ed |]. split; [exact Ew |].
  split; [| exact H].
  split; [apply passes_at_least; exact Pm |].
  split; eapply passes_between; eassumption.
Qed.

Lemma parse_accepts_within_bounds_only_witness :
  exists f : SettingsBody.fields,
    Example.body = Some f /\
    SettingsBody.monthlySalary f = Some (Json.Num (Fin 5000)) /\
    SettingsBody.dailyHours f = Some (Json.Num (Fin 8)) /\
    SettingsBody.weeklyDays f = Some (Json.Num (Fin 5)) /\
    in_bounds (Fin 5000) (Fin 8) (Fin 5) /\
    ((SettingsBody.isHoliday f = None /\ false = false)
     \/ SettingsBody.isHoliday f = Some (Json.Boolean false)).
Proof.
  apply (parse_accepts_within_bounds_only Example.body
           (InsertUserSettings.mk (Fin 5000) (Fin 8) (Fin 5) false)).
  reflexivity.
Defined.

(** X2: a body whose three numbers are finite with monthlySalary >= 1,
    1 <= dailyHours <= 24 and 1 <= weeklyDays <= 7, and whose isHoliday is
    a boolean or absent, is accepted as it is, isHoliday absent being
    false. *)
Theorem parse_accepts_every_body_within_bounds
    (m d w : number) (qm : Q) (holiday : option bool) :
  denotes m qm -> (1 <= qm)%Q -> between 1 24 d -> between 1 7 w ->
  Zod.insertUserSettingsSchema
    (Some
       (SettingsBody.mk (Some (Json.Num m)) (Some (Json.Num d))
          (Some (Json.Num w)) (option_map Json.Boolean holiday)))
  = Zod.Valid
      (InsertUserSettings.mk m d w
         (match holiday with Some b => b | None => false end)).
Proof.
  intros Dm Lm Bd Bw. unfold Zod.insertUserSettingsSchema.
  cbn [SettingsBody.monthlySalary SettingsBody.dailyHours
       SettingsBody.weeklyDays SettingsBody.isHoliday].
  rewrite (required_number_passes "monthlySalary" 1 Zod.monthlySalary_min
             None m).
  2:{ split; [apply (denotes_not_NaN m qm Dm) |].
      split; [apply (not_below_ltb m qm 1 Dm Lm) | exact I]. }
  rewrite (required_number_passes "dailyHours" 1 Zod.dailyHours_min
             (Some (24%Q, Zod.dailyHours_max)) d)
    by (apply between_passes; assumption).
  rewrite (required_number_passes "weeklyDays" 1 Zod.weeklyDays_min
             (Some (7%Q, Zod.weeklyDays_max)) w)
    by (apply between_passes; assumption).
  destruct holiday; reflexivity.
Qed.

Lemma parse_accepts_every_body_within_bounds_witness :
  Zod.insertUserSettingsSchema
    (Some
       (SettingsBody.mk (Some (Json.Num (Fin 1))) (Some (Json.Num (Fin 24)))
          (Some (Json.Num (Fin 7))) (option_map Json.Boolean None)))
  = Zod.Valid (InsertUserSettings.mk (Fin 1) (Fin 24) (Fin 7) false).
Proof.
  apply (parse_accepts_every_body_within_bounds
           (Fin 1) (Fin 24) (Fin 7) 1 None).
  - apply denotes_Fin.
  - discriminate.
  - exists 24%Q. split; [apply denotes_Fin |]. split; discriminate.
  - exists 7%Q. split; [apply denotes_Fin |]. split; discriminate.
Defined.



(** ** More on collections *)

Section MoreCollectionFacts.
Variable Doc : Type.
Variable _id : Doc -> string.

Lemma findById_app_new (id : string) (c : list Doc) (d : Doc) :
  Model.findById _id id c = None -> _id d = id ->
  Model.findById _id id (c ++ [d]) = Some d.
Proof.
  unfold Model.findById, Model.findOne. intros H E.
  induction c as [| e rest IH]; simpl in *.
  - rewrite E, String.eqb_refl. reflexivity.
  - destruct (String.eqb (_id e) id); [discriminate | auto].
Qed.

Lemma findById_app_other (other : string) (c : list Doc) (d : Doc) :
  other <> _id d ->
  Model.findById _id other (c ++ [d]) = Model.findById _id other c.
Proof.
  unfold Model.findById, Model.findOne. intros N.
  induction c as [| e rest IH]; simpl.
  - destruct (String.eqb_spec (_id d) other) as [E | _]; [| reflexivity].
    symmetry in E. contradiction.
  - destruct (String.eqb (_id e) other); [reflexivity | exact IH].
Qed.

Lemma findById_None_notin (id : string) (c : list Doc) :
  Model.findById _id id c = None -> ~ In id (map _id c).
Proof.
  unfold Model.findById, Model.findOne.
  induction c as [| e rest IH]; simpl; [tauto |].
  destruct (String.eqb_spec (_id e) id) as [E | N]; [discriminate |].
  intros H [E | I]; [contradiction | exact (IH H I)].
Qed.

Lemma save_unique (d : Doc) (c c' : list Doc) :
  Model.save _id d c = Some c' ->
  NoDup (map _id c) -> NoDup (map _id c').
Proof.
  unfold Model.save.
  destruct (Model.findById _id (_id d) c) eqn:F; [discriminate |].
  intros H U. injection H as <-.
  rewrite map_app. simpl.
  apply NoDup_app_remove_l with (l := []). simpl.
  apply findById_None_notin in F.
  clear - F U. induction (map _id c) as [| x l IH]; simpl.
  - constructor; [tauto | constructor].
  - inversion U as [| y l' Nx Ul]; subst.
    constructor.
    + rewrite in_app_iff. simpl. intros [I | [E | []]]; [contradiction |].
      apply F. left. symmetry. assumption.
    + apply IH; [| assumption]. intros I. apply F. right. assumption.
Qed.

Variable update : Doc -> Doc.
Hypothesis update_keeps_id : forall d, _id (update d) = _id d.

Lemma update_keeps_ids (id : string) (c : list Doc) :
  map _id (snd (Model.findByIdAndUpdate _id id update c)) = map _id c.
Proof.
  induction c as [| e rest IH]; simpl; [reflexivity |].
  destruct (String.eqb (_id e) id).
  - simpl. rewrite update_keeps_id. reflexivity.
  - destruct (Model.findByIdAndUpdate _id id update rest). simpl in *.
    rewrite IH. reflexivity.
Qed.

Lemma update_missing_same (id : string) (c : list Doc) :
  fst (Model.findByIdAndUpdate _id id update c) = None ->
  snd (Model.findByIdAndUpdate _id id update c) = c.
Proof.
  induction c as [| e rest IH]; simpl; [reflexivity |].
  destruct (String.eqb (_id e) id); [discriminate |].
  destruct (Model.findByIdAndUpdate _id id update rest). simpl in *.
  intros H. rewrite (IH H). reflexivity.
Qed.

End MoreCollectionFacts.

(** ** The handlers on user settings *)

(** X4: creating user settings from a body the schema accepts, under a
    fresh ObjectId, answers 200 with the settings: the numbers of the body,
    isHoliday defaulted, createdAt = updatedAt = now.  They are stored:
    [GET /api/user-settings/:id] on the new id answers the same settings,
    every other id is found as before and the sessions are untouched. *)
Theorem post_user_settings_creates
    (db : MongoStorage.state) (oid : string) (now : Date)
    (body : SettingsBody.t) (v : InsertUserSettings.t) :
  Zod.insertUserSettingsSchema body = Zod.Valid v ->
  Model.findById UserSettingsDoc._id oid (MongoStorage.UserSettingsModel db)
    = None ->
  let settings :=
    UserSettings.mk oid
      (InsertUserSettings.monthlySalary v) (InsertUserSettings.dailyHours v)
      (InsertUserSettings.weeklyDays v) (InsertUserSettings.isHoliday v)
      now now in
  exists db' : MongoStorage.state,
    Routes.post_user_settings oid now body db
      = (Returned (settings_respond 200 (Settings settings)), db') /\
    Routes.get_user_settings oid db'
      = (Returned (settings_respond 200 (Settings settings)), db') /\
    (forall other, other <> oid ->
       Model.findById UserSettingsDoc._id other
         (MongoStorage.UserSettingsModel db')
       = Model.findById UserSettingsDoc._id other
           (MongoStorage.UserSettingsModel db)) /\
    MongoStorage.IncomeSessionModel db' = MongoStorage.IncomeSessionModel db.
Proof.
  intros V Fresh settings.
  eexists. split.
  - unfold Routes.post_user_settings. rewrite V.
    unfold MongoStorage.createUserSettings, Model.save,
      try_catch, bind, gets, ret, modify.
    cbn [UserSettingsDoc._id MongoStorage.new_UserSettingsModel].
    rewrite Fresh. reflexivity.
  - cbn [MongoStorage.UserSettingsModel MongoStorage.IncomeSessionModel].
    split; [| split; [| reflexivity]].
    + unfold Routes.get_user_settings, MongoStorage.getUserSettings,
        try_catch, bind, gets, ret.
      cbn [MongoStorage.UserSettingsModel].
      rewrite (findById_app_new _ UserSettingsDoc._id oid
                 (MongoStorage.UserSettingsModel db)
                 (MongoStorage.new_UserSettingsModel oid now v)
                 Fresh eq_refl).
      reflexivity.
    + intros other N.
      apply (findById_app_other _ UserSettingsDoc._id). exact N.
Qed.

Lemma post_user_settings_creates_witness :
  let settings :=
    UserSettings.mk "507f1f77bcf86cd799439016"
      (Fin 5000) (Fin 8) (Fin 5) false 7200000 7200000 in
  exists db' : MongoStorage.state,
    Routes.post_user_settings "507f1f77bcf86cd799439016" 7200000
      Example.body Example.db
      = (Returned (settings_respond 200 (Settings settings)), db') /\
    Routes.get_user_settings "507f1f77bcf86cd799439016" db'
      = (Returned (settings_respond 200 (Settings settings)), db') /\
    (forall other, other <> "507f1f77bcf86cd799439016" ->
       Model.findById UserSettingsDoc._id other
         (MongoStorage.UserSettingsModel db')
       = Model.findById UserSettingsDoc._id other
           (MongoStorage.UserSettingsModel Example.db)) /\
    MongoStorage.IncomeSessionModel db'
    = MongoStorage.IncomeSessionModel Example.db.
Proof.
  apply (post_user_settings_creates Example.db "507f1f77bcf86cd799439016"
           7200000 Example.body
           (InsertUserSettings.mk (Fin 5000) (Fin 8) (Fin 5) false)).
  - reflexivity.
  - reflexivity.
Defined.

(** X5: whatever the body and the ObjectId, an answer of
    [POST /api/user-settings] other than 200 leaves the store as it was;
    a body the schema refuses is answered 400 "Invalid input" with the
    issues, and a 200 comes only for a body within the bounds. *)
Theorem post_user_settings_all_or_nothing
    (db db' : MongoStorage.state) (oid : string) (now : Date)
    (body : SettingsBody.t) (r : settings_response) :
  Routes.post_user_settings oid now body db = (Returned r, db') ->
  (settings_status r <> 200%Z -> db' = db) /\
  (forall errors,
     Zod.insertUserSettingsSchema body = Zod.ZodError errors ->
     r = settings_respond 400 (InvalidInput "Invalid input" errors)) /\
  (settings_status r = 200%Z ->
   exists s, settings_body r = Settings s /\
     in_bounds (UserSettings.monthlySalary s) (UserSettings.dailyHours s)
       (UserSettings.weeklyDays s)).
Proof.
  unfold Routes.post_user_settings.
  destruct (Zod.insertUserSettingsSchema body) as [v | errors] eqn:P.
  - unfold MongoStorage.createUserSettings, Model.save,
      try_catch, bind, gets, ret, modify, throw.
    destruct (Model.findById UserSettingsDoc._id
                (UserSettingsDoc._id
                   (MongoStorage.new_UserSettingsModel oid now v))
                (MongoStorage.UserSettingsModel db)).
    + intros H. injection H as <- <-. simpl.
      split; [reflexivity |]. split; [discriminate | discriminate].
    + intros H. injection H as <- <-. simpl.
      split; [intros N; contradiction N; reflexivity |].
      split; [discriminate |].
      intros _. eexists. split; [reflexivity |]. simpl.
      apply (parse_valid_in_bounds body v P).
  - unfold ret. intros H. injection H as <- <-. simpl.
    split; [reflexivity |].
    split; [intros e E; injection E as <-; reflexivity | discriminate].
Qed.

Lemma post_user_settings_all_or_nothing_witness :
  let r :=
    settings_respond 400
      (InvalidInput "Invalid input"
         [Zod.too_small "monthlySalary" Zod.monthlySalary_min;
          Zod.too_big "dailyHours" Zod.dailyHours_max]) in
  (settings_status r <> 200%Z -> Example.db = Example.db) /\
  (forall errors,
     Zod.insertUserSettingsSchema Example.bad_body = Zod.ZodError errors ->
     r = settings_respond 400 (InvalidInput "Invalid input" errors)) /\
  (settings_status r = 200%Z ->
   exists s, settings_body r = Settings s /\
     in_bounds (UserSettings.monthlySalary s) (UserSettings.dailyHours s)
       (UserSettings.weeklyDays s)).
Proof.
  apply (post_user_settings_all_or_nothing Example.db Example.db
           "507f1f77bcf86cd799439016" 7200000 Example.bad_body).
  reflexivity.
Defined.

(** What [.partial()] lets through, key by key. *)
Lemma partial_parse_valid
    (body : SettingsBody.t) (p : PartialInsertUserSettings.t) :
  Zod.insertUserSettingsSchema_partial body = Zod.Valid p ->
  exists f : SettingsBody.fields,
    body = Some f /\
    (PartialInsertUserSettings.monthlySalary p = None \/
     exists n, PartialInsertUserSettings.monthlySalary p = Some n /\
       at_least 1 n) /\
    (PartialInsertUserSettings.dailyHours p = None \/
     exists n, PartialInsertUserSettings.dailyHours p = Some n /\
       between 1 24 n) /\
    (PartialInsertUserSettings.weeklyDays p = None \/
     exists n, PartialInsertUserSettings.weeklyDays p = Some n /\
       between 1 7 n).
Proof.
  unfold Zod.insertUserSettingsSchema_partial.
  destruct body as [f |]; [| discriminate].
  destruct (Zod.optional_number "monthlySalary" 1 Zod.monthlySalary_min None
              (SettingsBody.monthlySalary f)) as [e1 v1] eqn:R1.
  destruct (Zod.optional_number "dailyHours" 1 Zod.dailyHours_min
              (Some (24%Q, Zod.dailyHours_max))
              (SettingsBody.dailyHours f)) as [e2 v2] eqn:R2.
  destruct (Zod.optional_number "weeklyDays" 1 Zod.weeklyDays_min
              (Some (7%Q, Zod.weeklyDays_max))
              (SettingsBody.weeklyDays f)) as [e3 v3] eqn:R3.
  destruct (Zod.optional_boolean "isHoliday" (SettingsBody.isHoliday f))
    as [e4 b] eqn:R4.
  destruct (e1 ++ e2 ++ e3 ++ e4) eqn:E; [| discriminate].
  apply app_eq_nil in E. destruct E as [-> E].
  apply app_eq_nil in E. destruct E as [-> E].
  apply app_eq_nil in E. destruct E as [-> ->].
  apply optional_number_valid in R1.
  apply optional_number_valid in R2.
  apply optional_number_valid in R3.
  intros H. injection H as <-. simpl.
  exists f. split; [reflexivity |].
  split; [| split].
  - destruct R1 as [[_ ->] | (n & _ & -> & P)]; [auto |].
    right. exists n. split; [reflexivity | apply passes_at_least; exact P].
  - destruct R2 as [[_ ->] | (n & _ & -> & P)]; [auto |].
    right. exists n. split; [reflexivity |].
    apply (passes_between 1 24 Zod.dailyHours_max n P).
  - destruct R3 as [[_ ->] | (n & _ & -> & P)]; [auto |].
    right. exists n. split; [reflexivity |].
    apply (passes_between 1 7 Zod.weeklyDays_max n P).
Qed.

Lemma set_settings_paths_keeps_id (now : Date)
    (p : PartialInsertUserSettings.t) (doc : UserSettingsDoc.t) :
  UserSettingsDoc._id (MongoStorage.set_settings_paths now p doc)
  = UserSettingsDoc._id doc.
Proof. reflexivity. Qed.

(** X6: [PATCH /api/user-settings/:id] with a body the partial schema
    accepts, on stored settings, answers 200 with the settings merged:
    every key of the body replaces the stored value, every absent key
    keeps it, id and createdAt are kept and updatedAt is the time of the
    update.  The merged settings are what a GET of the id answers next;
    the other settings and the sessions are untouched. *)
Theorem patch_user_settings_merges
    (db : MongoStorage.state) (now : Date) (id : string)
    (body : SettingsBody.t) (p : PartialInsertUserSettings.t)
    (doc : UserSettingsDoc.t) :
  Zod.insertUserSettingsSchema_partial body = Zod.Valid p ->
  Model.findById UserSettingsDoc._id id (MongoStorage.UserSettingsModel db)
    = Some doc ->
  exists (updated : UserSettings.t) (db' : MongoStorage.state),
    Routes.patch_user_settings now id body db
      = (Returned (settings_respond 200 (Settings updated)), db') /\
    field_merged (UserSettingsDoc.monthlySalary doc)
      (PartialInsertUserSettings.monthlySalary p)
      (UserSettings.monthlySalary updated) /\
    field_merged (UserSettingsDoc.dailyHours doc)
      (PartialInsertUserSettings.dailyHours p)
      (UserSettings.dailyHours updated) /\
    field_merged (UserSettingsDoc.weeklyDays doc)
      (PartialInsertUserSettings.weeklyDays p)
      (UserSettings.weeklyDays updated) /\
    field_merged (UserSettingsDoc.isHoliday doc)
      (PartialInsertUserSettings.isHoliday p)
      (UserSettings.isHoliday updated) /\
    UserSettings.id updated = UserSettingsDoc._id doc /\
    UserSettings.createdAt updated = UserSettingsDoc.createdAt doc /\
    UserSettings.updatedAt updated = now /\
    Routes.get_user_settings id db'
      = (Returned (settings_respond 200 (Settings updated)), db') /\
    (forall other, other <> id ->
       Model.findById UserSettingsDoc._id other
         (MongoStorage.UserSettingsModel db')
       = Model.findById UserSettingsDoc._id other
           (MongoStorage.UserSettingsModel db)) /\
    MongoStorage.IncomeSessionModel db' = MongoStorage.IncomeSessionModel db.
Proof.
  intros V F.
  pose proof (@findByIdAndUpdate_found _ UserSettingsDoc._id
                (MongoStorage.set_settings_paths now p) id
                (MongoStorage.UserSettingsModel db) doc F) as U.
  exists (MongoStorage.toUserSettings
            (MongoStorage.set_settings_paths now p doc)).
  exists (MongoStorage.mk
            (snd (Model.findByIdAndUpdate UserSettingsDoc._id id
                    (MongoStorage.set_settings_paths now p)
                    (MongoStorage.UserSettingsModel db)))
            (MongoStorage.IncomeSessionModel db)).
  split.
  { unfold Routes.patch_user_settings. rewrite V.
    unfold MongoStorage.updateUserSettings, try_catch, bind, ret.
    destruct (Model.findByIdAndUpdate UserSettingsDoc._id id
                (MongoStorage.set_settings_paths now p)
                (MongoStorage.UserSettingsModel db)) as [found c].
    simpl in U. rewrite U. reflexivity. }
  simpl.
  split; [destruct (PartialInsertUserSettings.monthlySalary p); reflexivity |].
  split; [destruct (PartialInsertUserSettings.dailyHours p); reflexivity |].
  split; [destruct (PartialInsertUserSettings.weeklyDays p); reflexivity |].
  split; [destruct (PartialInsertUserSettings.isHoliday p); reflexivity |].
  split; [reflexivity |]. split; [reflexivity |]. split; [reflexivity |].
  split; [| split; [| reflexivity]].
  - unfold Routes.get_user_settings, MongoStorage.getUserSettings,
      try_catch, bind, gets, ret.
    cbn [MongoStorage.UserSettingsModel].
    rewrite (@findById_updated _ UserSettingsDoc._id
               (MongoStorage.set_settings_paths now p)
               (set_settings_paths_keeps_id now p) id _ doc F).
    reflexivity.
  - intros other N.
    apply (@findById_other _ UserSettingsDoc._id
             (MongoStorage.set_settings_paths now p)
             (set_settings_paths_keeps_id now p) id other _ N).
Qed.

Lemma patch_user_settings_merges_witness :
  exists (updated : UserSettings.t) (db' : MongoStorage.state),
    Routes.patch_user_settings 7200000 "507f1f77bcf86cd799439011"
      Example.hours_body Example.db
      = (Returned (settings_respond 200 (Settings updated)), db') /\
    field_merged (Fin 5000) None (UserSettings.monthlySalary updated) /\
    field_merged (Fin 8) (Some (Fin 6)) (UserSettings.dailyHours updated) /\
    field_merged (Fin 5) None (UserSettings.weeklyDays updated) /\
    field_merged false None (UserSettings.isHoliday updated) /\
    UserSettings.id updated = "507f1f77bcf86cd799439011" /\
    UserSettings.createdAt updated = 0%Z /\
    UserSettings.updatedAt updated = 7200000%Z /\
    Routes.get_user_settings "507f1f77bcf86cd799439011" db'
      = (Returned (settings_respond 200 (Settings updated)), db') /\
    (forall other, other <> "507f1f77bcf86cd799439011" ->
       Model.findById UserSettingsDoc._id other
         (MongoStorage.UserSettingsModel db')
       = Model.findById UserSettingsDoc._id other
           (MongoStorage.UserSettingsModel Example.db)) /\
    MongoStorage.IncomeSessionModel db'
    = MongoStorage.IncomeSessionModel Example.db.
Proof.
  apply (patch_user_settings_merges Example.db 7200000
           "507f1f77bcf86cd799439011" Example.hours_body
           (PartialInsertUserSettings.mk None (Some (Fin 6)) None None)
           Example.settingsDoc).
  - reflexivity.
  - reflexivity.
Defined.

(** X7: an answer of [PATCH /api/user-settings/:id] other than 200 leaves
    the store as it was.  The body is validated before the id is looked
    up: a body the partial schema refuses is answered 400 with the issues
    whether the id exists or not, and an accepted body for an id that is
    not stored is answered 404 "Settings not found". *)
Theorem patch_user_settings_all_or_nothing
    (db db' : MongoStorage.state) (now : Date) (id : string)
    (body : SettingsBody.t) (r : settings_response) :
  Routes.patch_user_settings now id body db = (Returned r, db') ->
  (settings_status r <> 200%Z -> db' = db) /\
  (forall errors,
     Zod.insertUserSettingsSchema_partial body = Zod.ZodError errors ->
     r = settings_respond 400 (InvalidInput "Invalid input" errors)) /\
  (forall p,
     Zod.insertUserSettingsSchema_partial body = Zod.Valid p ->
     Model.findById UserSettingsDoc._id id
       (MongoStorage.UserSettingsModel db) = None ->
     r = settings_respond 404 (SettingsMessage "Settings not found")).
Proof.
  unfold Routes.patch_user_settings.
  destruct (Zod.insertUserSettingsSchema_partial body) as [p | errors] eqn:P.
  - unfold MongoStorage.updateUserSettings, try_catch, bind, ret.
    pose proof (update_missing_same _ UserSettingsDoc._id
                  (MongoStorage.set_settings_paths now p) id
                  (MongoStorage.UserSettingsModel db)) as Same.
    pose proof (@findByIdAndUpdate_missing _ UserSettingsDoc._id
                  (MongoStorage.set_settings_paths now p) id
                  (MongoStorage.UserSettingsModel db)) as Missing.
    destruct (Model.findByIdAndUpdate UserSettingsDoc._id id
                (MongoStorage.set_settings_paths now p)
                (MongoStorage.UserSettingsModel db)) as [[d |] c].
    + intros H. injection H as <- <-. simpl.
      split; [intros N; contradiction N; reflexivity |].
      split; [discriminate |].
      intros q _ F. specialize (Missing F). discriminate Missing.
    + intros H. injection H as <- <-. simpl in *.
      rewrite (Same eq_refl).
      split; [intros _; destruct db; reflexivity |].
      split; [discriminate | reflexivity].
  - unfold ret. intros H. injection H as <- <-. simpl.
    split; [reflexivity |].
    split; [intros e E; injection E as <-; reflexivity | discriminate].
Qed.

Lemma patch_user_settings_all_or_nothing_witness :
  let r := settings_respond 404 (SettingsMessage "Settings not found") in
  (settings_status r <> 200%Z -> Example.db = Example.db) /\
  (forall errors,
     Zod.insertUserSettingsSchema_partial Example.hours_body
       = Zod.ZodError errors ->
     r = settings_respond 400 (InvalidInput "Invalid input" errors)) /\
  (forall p,
     Zod.insertUserSettingsSchema_partial Example.hours_body = Zod.Valid p ->
     Model.findById UserSettingsDoc._id "no such settings"
       (MongoStorage.UserSettingsModel Example.db) = None ->
     r = settings_respond 404 (SettingsMessage "Settings not found")).
Proof.
  apply (patch_user_settings_all_or_nothing Example.db Example.db 7200000
           "no such settings" Example.hours_body).
  reflexivity.
Defined.

(** ** Bounds of the stored configurations *)

Lemma Forall_update (Doc : Type) (_id : Doc -> string) (update : Doc -> Doc)
    (P : Doc -> Prop) (id : string) (c : list Doc) :
  (forall d, P d -> P (update d)) ->
  Forall P c -> Forall P (snd (Model.findByIdAndUpdate _id id update c)).
Proof.
  intros Keep. induction c as [| e rest IH]; simpl; [auto |].
  intros H. inversion H as [| x l Pe Prest]; subst.
  destruct (String.eqb (_id e) id).
  - simpl. constructor; auto.
  - specialize (IH Prest).
    destruct (Model.findByIdAndUpdate _id id update rest). simpl in *.
    constructor; assumption.
Qed.

(** X8: the two handlers that write user settings keep every stored
    configuration within the bounds of the schema (monthlySalary >= 1,
    1 <= dailyHours <= 24, 1 <= weeklyDays <= 7), whatever the body, the
    id and the ObjectId: a refused body writes nothing and an accepted one
    writes values within the bounds. *)
Theorem settings_handlers_keep_bounds (db : MongoStorage.state) :
  all_in_bounds db ->
  (forall oid now body,
     all_in_bounds (snd (Routes.post_user_settings oid now body db))) /\
  (forall now id body,
     all_in_bounds (snd (Routes.patch_user_settings now id body db))).
Proof.
  intros Inv. split.
  - intros oid now body. unfold Routes.post_user_settings.
    destruct (Zod.insertUserSettingsSchema body) as [v | errors] eqn:P;
      [| exact Inv].
    unfold MongoStorage.createUserSettings, Model.save,
      try_catch, bind, gets, ret, modify, throw.
    destruct (Model.findById UserSettingsDoc._id
                (UserSettingsDoc._id
                   (MongoStorage.new_UserSettingsModel oid now v))
                (MongoStorage.UserSettingsModel db)); [exact Inv |].
    unfold all_in_bounds. simpl.
    apply Forall_app. split; [exact Inv |].
    constructor; [| constructor]. simpl.
    apply (parse_valid_in_bounds body v P).
  - intros now id body. unfold Routes.patch_user_settings.
    destruct (Zod.insertUserSettingsSchema_partial body) as [p | errors] eqn:P;
      [| exact Inv].
    apply partial_parse_valid in P.
    destruct P as (f & _ & Pm & Pd & Pw).
    unfold MongoStorage.updateUserSettings, try_catch, bind, ret.
    pose proof (Forall_update _ UserSettingsDoc._id
                  (MongoStorage.set_settings_paths now p)
                  (fun doc =>
                     in_bounds (UserSettingsDoc.monthlySalary doc)
                       (UserSettingsDoc.dailyHours doc)
                       (UserSettingsDoc.weeklyDays doc))
                  id (MongoStorage.UserSettingsModel db)) as K.
    destruct (Model.findByIdAndUpdate UserSettingsDoc._id id
                (MongoStorage.set_settings_paths now p)
                (MongoStorage.UserSettingsModel db)) as [[d |] c];
      simpl in *; apply K; try exact Inv;
      intros doc (Bm & Bd & Bw); simpl;
      (split; [| split]);
      [ destruct Pm as [-> | (n & -> & B)]; simpl; assumption
      | destruct Pd as [-> | (n & -> & B)]; simpl; assumption
      | destruct Pw as [-> | (n & -> & B)]; simpl; assumption
      | destruct Pm as [-> | (n & -> & B)]; simpl; assumption
      | destruct Pd as [-> | (n & -> & B)]; simpl; assumption
      | destruct Pw as [-> | (n & -> & B)]; simpl; assumption ].
Qed.

Lemma settings_handlers_keep_bounds_witness :
  (forall oid now body,
     all_in_bounds
       (snd (Routes.post_user_settings oid now body Example.valid_db))) /\
  (forall now id body,
     all_in_bounds
       (snd (Routes.patch_user_settings now id body Example.valid_db))).
Proof.
  apply (settings_handlers_keep_bounds Example.valid_db).
  constructor; [| constructor]. simpl. split; [| split].
  - right. exists 5000%Q. split; [apply denotes_Fin | discriminate].
  - exists 8%Q. split; [apply denotes_Fin |]. split; discriminate.
  - exists 5%Q. split; [apply denotes_Fin |]. split; discriminate.
Defined.

Section WithinBounds.
Local Open Scope Q_scope.
Import Number.

Lemma between_Fin (lo hi : Q) (n : number) :
  0 < lo -> between lo hi n -> exists r, n = Fin r /\ lo <= r /\ r <= hi.
Proof.
  intros P (q & (r & Hr & E) & L & H).
  destruct n as [p | | | |]; simpl in Hr; try discriminate;
    injection Hr as <-.
  - exists p. split; [reflexivity |]. rewrite E. split; assumption.
  - exfalso. lra.
Qed.

Lemma signbit_pos (q : Q) : 0 < q -> (Qnum q <? 0)%Z = false.
Proof.
  intros P. apply Z.ltb_ge.
  destruct (Z.lt_ge_cases (Qnum q) 0) as [N | G]; [| exact G].
  apply Qnum_neg_iff in N. lra.
Qed.

Lemma mul_Fin_pos (a b : Q) :
  0 < a -> 0 < b -> (Fin a * Fin b)%num = Fin (a * b).
Proof.
  intros Pa Pb. unfold mul.
  rewrite (@classify_Fin_num a) by lra.
  rewrite (@classify_Fin_num b) by lra.
  reflexivity.
Qed.

Lemma div_Infinity_pos (b : Q) : 0 < b -> (Infinity / Fin b)%num = Infinity.
Proof.
  intros Pb. unfold div.
  rewrite (@classify_Fin_num b) by lra.
  simpl. rewrite (signbit_pos b Pb). reflexivity.
Qed.

Lemma mul_Infinity_pos (b : Q) : 0 < b -> (Infinity * Fin b)%num = Infinity.
Proof.
  intros Pb. unfold mul.
  rewrite (@classify_Fin_num b) by lra.
  simpl. rewrite (signbit_pos b Pb). reflexivity.
Qed.

Lemma monthlyHours_range (d w : Q) :
  1 <= d -> d <= 24 -> 1 <= w -> w <= 7 ->
  4.33 <= Spec.round_half_up (Spec.monthlyHours d w) /\
  Spec.round_half_up (Spec.monthlyHours d w) <= 727.44.
Proof.
  intros D1 D2 W1 W2. unfold Spec.monthlyHours.
  assert (L : 4.33 <= d * w * 4.33) by nra.
  assert (H : d * w * 4.33 <= 727.44) by nra.
  split.
  - apply Qle_trans with (Spec.round_half_up 4.33);
      [vm_compute; discriminate | apply round_half_up_mono; exact L].
  - apply Qle_trans with (Spec.round_half_up 727.44);
      [apply round_half_up_mono; exact H | vm_compute; discriminate].
Qed.



End WithinBounds.

(** ** The handlers on sessions *)

Section SessionFacts.
Variable Doc : Type.
Variable _id : Doc -> string.

Lemma find_app_none (f : Doc -> bool) (c l : list Doc) :
  find f c = None -> find f (c ++ l) = find f l.
Proof.
  induction c as [| e rest IH]; simpl; [reflexivity |].
  destruct (f e); [discriminate | exact IH].
Qed.

Lemma find_none_filter (f : Doc -> bool) (c : list Doc) :
  find f c = None -> filter f c = [].
Proof.
  induction c as [| e rest IH]; simpl; [reflexivity |].
  destruct (f e); [discriminate | exact IH].
Qed.

Lemma filter_nil_find (f : Doc -> bool) (c : list Doc) :
  filter f c = [] -> find f c = None.
Proof.
  induction c as [| e rest IH]; simpl; [reflexivity |].
  destruct (f e); [discriminate | exact IH].
Qed.

Variable update : Doc -> Doc.

(** An update that activates nothing does not lengthen a selection. *)
Lemma filter_update_le (P : Doc -> bool) (id : string) (c : list Doc) :
  (forall d, P (update d) = true -> P d = true) ->
  (List.length (filter P (snd (Model.findByIdAndUpdate _id id update c)))
   <= List.length (filter P c))%nat.
Proof.
  intros Keep. induction c as [| e rest IH]; simpl; [lia |].
  destruct (String.eqb (_id e) id).
  - simpl. destruct (P (update e)) eqn:U.
    + rewrite (Keep e U). simpl. lia.
    + destruct (P e); simpl; lia.
  - destruct (Model.findByIdAndUpdate _id id update rest). simpl in *.
    destruct (P e); simpl; lia.
Qed.

(** When the one selected document is updated out of the selection,
    nothing is selected any more. *)
Lemma filter_update_nil (P : Doc -> bool) (id : string) (c : list Doc)
    (doc : Doc) :
  (List.length (filter P c) <= 1)%nat ->
  Model.findById _id id c = Some doc -> P doc = true ->
  (forall d, P (update d) = false) ->
  filter P (snd (Model.findByIdAndUpdate _id id update c)) = [].
Proof.
  intros One F Pd Off. unfold Model.findById, Model.findOne in F.
  induction c as [| e rest IH]; simpl in *; [discriminate |].
  destruct (String.eqb (_id e) id).
  - injection F as ->. rewrite Pd in One. simpl in *.
    rewrite Off.
    destruct (filter P rest); [reflexivity | simpl in One; lia].
  - destruct (P e) eqn:Pe.
    + exfalso. simpl in One.
      apply find_some in F. destruct F as [I _].
      assert (In doc (filter P rest)) by (apply filter_In; auto).
      destruct (filter P rest); [contradiction | simpl in One; lia].
    + specialize (IH One F).
      destruct (Model.findByIdAndUpdate _id id update rest). simpl in *.
      rewrite Pe. exact IH.
Qed.

(** Two updates of the same id, one after the other, are one update. *)
Lemma update_twice (update' : Doc -> Doc) (id : string) (c : list Doc) :
  (forall d, _id (update d) = _id d) ->
  Model.findByIdAndUpdate _id id update'
    (snd (Model.findByIdAndUpdate _id id update c))
  = Model.findByIdAndUpdate _id id (fun d => update' (update d)) c.
Proof.
  intros Keep. induction c as [| e rest IH]; simpl; [reflexivity |].
  destruct (String.eqb (_id e) id) eqn:E.
  - simpl. rewrite Keep, E. reflexivity.
  - destruct (Model.findByIdAndUpdate _id id update rest) as [f1 c1].
    simpl in *. rewrite E, IH.
    destruct (Model.findByIdAndUpdate _id id
                (fun d => update' (update d)) rest).
    reflexivity.
Qed.

Lemma update_ext (update' : Doc -> Doc) (id : string) (c : list Doc) :
  (forall d, update' d = update d) ->
  Model.findByIdAndUpdate _id id update' c
  = Model.findByIdAndUpdate _id id update c.
Proof.
  intros Ext. induction c as [| e rest IH]; simpl; [reflexivity |].
  rewrite Ext, IH. reflexivity.
Qed.

End SessionFacts.

Lemma active_for_settled (uid : string) (now : Date) (earned : number)
    (d : IncomeSessionDoc.t) :
  active_for uid (MongoStorage.set_paths (settled now earned) d) = false.
Proof.
  unfold active_for. simpl. apply andb_false_r.
Qed.

(** The partial record [PATCH /api/income-session/:id] writes. *)
Lemma active_for_patched (uid : string) (v : number) (d : IncomeSessionDoc.t) :
  active_for uid
    (MongoStorage.set_paths
       (PartialIncomeSession.mk None None None None (Some v) None) d)
  = active_for uid d.
Proof. reflexivity. Qed.

(** X10: [GET /api/income-session/:userSettingsId] answers a stored
    session that is active and belongs to the id, or 404 "No active
    session found" when the store holds no active session for the id (a
    session that has ended is never answered); the store is left as it
    was. *)
Theorem get_income_session_answers_active_only
    (db db' : MongoStorage.state) (uid : string) (r : response) :
  Routes.get_income_session uid db = (Returned r, db') ->
  db' = db /\
  ((r = respond 404 (Message "No active session found") /\
    forall d, In d (MongoStorage.IncomeSessionModel db) ->
      IncomeSessionDoc.userSettingsId d = uid ->
      IncomeSessionDoc.isActive d = false)
   \/
   exists d,
     r = respond 200 (Session (Some (MongoStorage.toIncomeSession d))) /\
     In d (MongoStorage.IncomeSessionModel db) /\
     IncomeSessionDoc.userSettingsId d = uid /\
     IncomeSessionDoc.isActive d = true).
Proof.
  unfold Routes.get_income_session, MongoStorage.getActiveSession,
    try_catch, bind, gets, ret.
  fold (active_for uid). unfold Model.findOne.
  destruct (find (active_for uid) (MongoStorage.IncomeSessionModel db))
    as [d |] eqn:F; intros H; injection H as <- <-;
    (split; [reflexivity |]).
  - right. exists d. apply find_some in F. destruct F as [I T].
    apply active_for_true in T. tauto.
  - left. split; [reflexivity |]. intros d I U.
    pose proof (find_none _ _ F d I) as T.
    destruct (IncomeSessionDoc.isActive d) eqn:A; [| reflexivity].
    assert (active_for uid d = true) by (apply active_for_true; auto).
    congruence.
Qed.

Lemma get_income_session_answers_active_only_witness :
  let r :=
    respond 200
      (Session (Some (MongoStorage.toIncomeSession Example.runningDoc))) in
  Example.db = Example.db /\
  ((r = respond 404 (Message "No active session found") /\
    forall d, In d (MongoStorage.IncomeSessionModel Example.db) ->
      IncomeSessionDoc.userSettingsId d = "507f1f77bcf86cd799439011" ->
      IncomeSessionDoc.isActive d = false)
   \/
   exists d,
     r = respond 200 (Session (Some (MongoStorage.toIncomeSession d))) /\
     In d (MongoStorage.IncomeSessionModel Example.db) /\
     IncomeSessionDoc.userSettingsId d = "507f1f77bcf86cd799439011" /\
     IncomeSessionDoc.isActive d = true).
Proof.
  apply (get_income_session_answers_active_only Example.db Example.db
           "507f1f77bcf86cd799439011").
  reflexivity.
Defined.

(** X11: [PATCH /api/income-session/:id] with a number writes totalEarned
    and nothing else: id, userSettingsId, sessionStart, sessionEnd and
    isActive of the session are as before, so the session is not closed,
    and isActive is not looked at, so a session that has ended is updated
    as well.  The other sessions and the user settings are untouched. *)
Theorem patch_income_session_writes_totalEarned_only
    (db : MongoStorage.state) (id : string) (v : number)
    (doc : IncomeSessionDoc.t) :
  Model.findById IncomeSessionDoc._id id (MongoStorage.IncomeSessionModel db)
    = Some doc ->
  exists db' : MongoStorage.state,
    Routes.patch_income_session id v db
      = (Returned
           (respond 200
              (Session
                 (Some
                    (IncomeSession.mk
                       (IncomeSessionDoc._id doc)
                       (IncomeSessionDoc.userSettingsId doc)
                       (IncomeSessionDoc.sessionStart doc)
                       (IncomeSessionDoc.sessionEnd doc)
                       v
                       (IncomeSessionDoc.isActive doc))))),
         db') /\
    Model.findById IncomeSessionDoc._id id (MongoStorage.IncomeSessionModel db')
      = Some
          (IncomeSessionDoc.mk
             (IncomeSessionDoc._id doc)
             (IncomeSessionDoc.userSettingsId doc)
             (IncomeSessionDoc.sessionStart doc)
             (IncomeSessionDoc.sessionEnd doc)
             v
             (IncomeSessionDoc.isActive doc)) /\
    (forall other, other <> id ->
       Model.findById IncomeSessionDoc._id other
         (MongoStorage.IncomeSessionModel db')
       = Model.findById IncomeSessionDoc._id other
           (MongoStorage.IncomeSessionModel db)) /\
    MongoStorage.UserSettingsModel db' = MongoStorage.UserSettingsModel db.
Proof.
  intros F.
  set (p := PartialIncomeSession.mk None None None None (Some v) None).
  pose proof (@findByIdAndUpdate_found _ IncomeSessionDoc._id
                (MongoStorage.set_paths p) id
                (MongoStorage.IncomeSessionModel db) doc F) as U.
  exists (MongoStorage.mk (MongoStorage.UserSettingsModel db)
            (snd (Model.findByIdAndUpdate IncomeSessionDoc._id id
                    (MongoStorage.set_paths p)
                    (MongoStorage.IncomeSessionModel db)))).
  split.
  { unfold Routes.patch_income_session, MongoStorage.updateIncomeSession,
      try_catch, bind, ret.
    fold p.
    destruct (Model.findByIdAndUpdate IncomeSessionDoc._id id
                (MongoStorage.set_paths p)
                (MongoStorage.IncomeSessionModel db)) as [found c].
    simpl in U. rewrite U. reflexivity. }
  cbn [MongoStorage.IncomeSessionModel MongoStorage.UserSettingsModel].
  split; [| split; [| reflexivity]].
  - rewrite (@findById_updated _ IncomeSessionDoc._id
               (MongoStorage.set_paths p) (set_paths_keeps_id p) id _ doc F).
    reflexivity.
  - intros other N.
    apply (@findById_other _ IncomeSessionDoc._id
             (MongoStorage.set_paths p) (set_paths_keeps_id p) id other _ N).
Qed.

Lemma patch_income_session_writes_totalEarned_only_witness :
  exists db' : MongoStorage.state,
    Routes.patch_income_session "507f1f77bcf86cd799439014" (Fin 42.50)
      Example.db
      = (Returned
           (respond 200
              (Session
                 (Some
                    (IncomeSession.mk "507f1f77bcf86cd799439014"
                       "507f1f77bcf86cd799439011" 0 (Some 60000%Z)
                       (Fin 42.50) false)))),
         db') /\
    Model.findById IncomeSessionDoc._id "507f1f77bcf86cd799439014"
      (MongoStorage.IncomeSessionModel db')
      = Some
          (IncomeSessionDoc.mk "507f1f77bcf86cd799439014"
             "507f1f77bcf86cd799439011" 0 (Some 60000%Z) (Fin 42.50) false) /\
    (forall other, other <> "507f1f77bcf86cd799439014" ->
       Model.findById IncomeSessionDoc._id other
         (MongoStorage.IncomeSessionModel db')
       = Model.findById IncomeSessionDoc._id other
           (MongoStorage.IncomeSessionModel Example.db)) /\
    MongoStorage.UserSettingsModel db'
    = MongoStorage.UserSettingsModel Example.db.
Proof.
  apply (patch_income_session_writes_totalEarned_only Example.db
           "507f1f77bcf86cd799439014" (Fin 42.50) Example.endedDoc).
  reflexivity.
Defined.

(** X12: [PATCH /api/income-session/:id] on an id the store does not hold
    answers 404 "Session not found" and leaves the store as it was. *)
Theorem patch_income_session_unknown_id
    (db : MongoStorage.state) (id : string) (v : number) :
  Model.findById IncomeSessionDoc._id id (MongoStorage.IncomeSessionModel db)
    = None ->
  Routes.patch_income_session id v db
  = (Returned (respond 404 (Message "Session not found")), db).
Proof.
  intros F.
  unfold Routes.patch_income_session, MongoStorage.updateIncomeSession,
    try_catch, bind, ret.
  rewrite (@findByIdAndUpdate_missing _ IncomeSessionDoc._id _ id _ F).
  destruct db. reflexivity.
Qed.

Lemma patch_income_session_unknown_id_witness :
  Routes.patch_income_session "no such session" (Fin 42.50) Example.db
  = (Returned (respond 404 (Message "Session not found")), Example.db).
Proof.
  apply (patch_income_session_unknown_id Example.db "no such session"
           (Fin 42.50)).
  reflexivity.
Defined.



(** X14: once [POST /api/income-session] has answered a session for a
    configuration id, every later start for that id, whatever its
    ObjectId and clock, answers that same session and leaves the store as
    it is, and [GET /api/income-session/:userSettingsId] answers it too. *)
Theorem post_income_session_is_idempotent
    (db db' : MongoStorage.state) (oid : string) (now : Date) (uid : string)
    (s : IncomeSession.t) :
  Routes.post_income_session oid now (Some uid) db
    = (Returned (respond 200 (Session (Some s))), db') ->
  (forall oid' now',
     Routes.post_income_session oid' now' (Some uid) db'
     = (Returned (respond 200 (Session (Some s))), db')) /\
  Routes.get_income_session uid db'
  = (Returned (respond 200 (Session (Some s))), db').
Proof.
  unfold Routes.post_income_session, Routes.get_income_session,
    MongoStorage.getActiveSession, MongoStorage.createIncomeSession,
    Model.save, Model.findOne, MongoStorage.new_IncomeSessionModel,
    try_catch, bind, gets, ret, modify, throw.
  cbn [InsertIncomeSession.userSettingsId IncomeSessionDoc._id].
  destruct (String.eqb uid "") eqn:Empty; [discriminate |].
  fold (active_for uid).
  destruct (find (active_for uid) (MongoStorage.IncomeSessionModel db))
    as [d |] eqn:F.
  - intros H. injection H as <- <-.
    rewrite F. split; [intros; reflexivity | reflexivity].
  - destruct (Model.findById IncomeSessionDoc._id oid
                (MongoStorage.IncomeSessionModel db)); [discriminate |].
    intros H. injection H as <- <-.
    cbn [MongoStorage.IncomeSessionModel].
    assert (A : find (active_for uid)
                  (MongoStorage.IncomeSessionModel db
                   ++ [IncomeSessionDoc.mk oid uid now None (Fin 0) true])
                = Some (IncomeSessionDoc.mk oid uid now None (Fin 0) true)).
    { rewrite (find_app_none _ _ _ _ F). simpl.
      unfold active_for. simpl. rewrite String.eqb_refl. reflexivity. }
    rewrite A. split; [intros; reflexivity | reflexivity].
Qed.

Lemma post_income_session_is_idempotent_witness :
  let s :=
    IncomeSession.mk "507f1f77bcf86cd799439015" "507f1f77bcf86cd799439011"
      7200000 None (Fin 0) true in
  let db' :=
    MongoStorage.mk [Example.settingsDoc; Example.idleDoc]
      [IncomeSessionDoc.mk "507f1f77bcf86cd799439015"
         "507f1f77bcf86cd799439011" 7200000 None (Fin 0) true] in
  (forall oid' now',
     Routes.post_income_session oid' now' (Some "507f1f77bcf86cd799439011") db'
     = (Returned (respond 200 (Session (Some s))), db')) /\
  Routes.get_income_session "507f1f77bcf86cd799439011" db'
  = (Returned (respond 200 (Session (Some s))), db').
Proof.
  apply (post_income_session_is_idempotent Example.fresh_db _
           "507f1f77bcf86cd799439015" 7200000 "507f1f77bcf86cd799439011").
  reflexivity.
Defined.



(** X16: the handlers keep the invariant of the sessions: when the store
    holds at most one active session for each configuration id, it still
    does after a start (a session is created only when the id has none
    active), after an end (it only deactivates) and after an update of
    totalEarned, whatever their inputs. *)
Theorem session_handlers_keep_one_active (db : MongoStorage.state) :
  one_active_per_config db ->
  (forall oid now userSettingsId,
     one_active_per_config
       (snd (Routes.post_income_session oid now userSettingsId db))) /\
  (forall now id,
     one_active_per_config (snd (Routes.delete_income_session now id db))) /\
  (forall id totalEarned,
     one_active_per_config
       (snd (Routes.patch_income_session id totalEarned db))).
Proof.
  intros One. split; [| split].
  - intros oid now [uid |]; [| exact One].
    unfold Routes.post_income_session, MongoStorage.getActiveSession,
      MongoStorage.createIncomeSession, Model.save, Model.findOne,
      MongoStorage.new_IncomeSessionModel,
      try_catch, bind, gets, ret, modify, throw.
    cbn [InsertIncomeSession.userSettingsId IncomeSessionDoc._id].
    destruct (String.eqb uid ""); [exact One |].
    fold (active_for uid).
    destruct (find (active_for uid) (MongoStorage.IncomeSessionModel db))
      as [d |] eqn:F; [exact One |].
    destruct (Model.findById IncomeSessionDoc._id oid
                (MongoStorage.IncomeSessionModel db)); [exact One |].
    intros uid'. cbn [snd MongoStorage.IncomeSessionModel].
    rewrite filter_app, length_app.
    destruct (String.eqb_spec uid uid') as [<- | N].
    + rewrite (find_none_filter _ _ _ F). simpl.
      destruct (active_for uid _); simpl; lia.
    + specialize (One uid').
      assert (Off : active_for uid'
                      (IncomeSessionDoc.mk oid uid now None (Fin 0) true)
                    = false).
      { unfold active_for. simpl.
        destruct (String.eqb_spec uid uid'); [contradiction | reflexivity]. }
      simpl. rewrite Off. simpl. lia.
  - intros now id.
    unfold Routes.delete_income_session, MongoStorage.getIncomeSessionById,
      MongoStorage.getUserSettingsById, MongoStorage.getUserSettings,
      MongoStorage.updateIncomeSession, try_catch, bind, gets, ret.
    destruct (Model.findById IncomeSessionDoc._id id
                (MongoStorage.IncomeSessionModel db)) as [doc |];
      [| exact One].
    cbn [MongoStorage.toIncomeSession IncomeSession.isActive
         IncomeSession.userSettingsId IncomeSession.sessionStart].
    destruct (IncomeSessionDoc.isActive doc); [| exact One].
    cbn [negb].
    destruct (Model.findById UserSettingsDoc._id
                (IncomeSessionDoc.userSettingsId doc)
                (MongoStorage.UserSettingsModel db)) as [sdoc |];
      [| exact One].
    set (e := Routes.earned (MongoStorage.toUserSettings sdoc)
                (IncomeSessionDoc.sessionStart doc) now).
    fold (settled now e).
    pose proof (fun uid =>
                  filter_update_le _ IncomeSessionDoc._id
                    (MongoStorage.set_paths (settled now e))
                    (active_for uid) id
                    (MongoStorage.IncomeSessionModel db)) as Le.
    destruct (Model.findByIdAndUpdate IncomeSessionDoc._id id
                (MongoStorage.set_paths (settled now e))
                (MongoStorage.IncomeSessionModel db)) as [found c].
    assert (Inv : forall uid, (List.length (filter (active_for uid) c) <= 1)%nat).
    { intros uid. specialize (Le uid). specialize (One uid). simpl in Le.
      assert (L : (List.length (filter (active_for uid) c)
                   <= List.length
                        (filter (active_for uid)
                           (MongoStorage.IncomeSessionModel db)))%nat).
      { apply Le. intros d T. rewrite active_for_settled in T. discriminate. }
      lia. }
    destruct found; exact Inv.
  - intros id v.
    unfold Routes.patch_income_session, MongoStorage.updateIncomeSession,
      try_catch, bind, ret.
    set (p := PartialIncomeSession.mk None None None None (Some v) None).
    pose proof (fun uid =>
                  filter_update_le _ IncomeSessionDoc._id
                    (MongoStorage.set_paths p)
                    (active_for uid) id
                    (MongoStorage.IncomeSessionModel db)) as Le.
    destruct (Model.findByIdAndUpdate IncomeSessionDoc._id id
                (MongoStorage.set_paths p)
                (MongoStorage.IncomeSessionModel db)) as [found c].
    assert (Inv : forall uid, (List.length (filter (active_for uid) c) <= 1)%nat).
    { intros uid. specialize (Le uid). specialize (One uid). simpl in Le.
      assert (L : (List.length (filter (active_for uid) c)
                   <= List.length
                        (filter (active_for uid)
                           (MongoStorage.IncomeSessionModel db)))%nat).
      { apply Le. intros d T. exact T. }
      lia. }
    destruct found; exact Inv.
Qed.

Lemma session_handlers_keep_one_active_witness :
  (forall oid now userSettingsId,
     one_active_per_config
       (snd (Routes.post_income_session oid now userSettingsId Example.db))) /\
  (forall now id,
     one_active_per_config
       (snd (Routes.delete_income_session now id Example.db))) /\
  (forall id totalEarned,
     one_active_per_config
       (snd (Routes.patch_income_session id totalEarned Example.db))).
Proof.
  apply (session_handlers_keep_one_active Example.db).
  intros uid.
  unfold Example.db, Example.runningDoc, Example.endedDoc, active_for.
  cbn [MongoStorage.IncomeSessionModel filter
       IncomeSessionDoc.userSettingsId IncomeSessionDoc.isActive].
  destruct (String.eqb "507f1f77bcf86cd799439011" uid);
    cbn [andb Bool.eqb List.length]; lia.
Defined.

(** X17: no handler makes two documents share an id.  When the ids of the
    stored sessions and of the stored settings are unique they still are
    after each of the five handlers that write, whatever their inputs: a
    creation under an id that is taken is refused and writes nothing, and
    an update keeps the id of the document. *)
Theorem handlers_keep_ids_unique (db : MongoStorage.state) :
  unique_ids db ->
  (forall oid now userSettingsId,
     unique_ids (snd (Routes.post_income_session oid now userSettingsId db))) /\
  (forall now id,
     unique_ids (snd (Routes.delete_income_session now id db))) /\
  (forall id totalEarned,
     unique_ids (snd (Routes.patch_income_session id totalEarned db))) /\
  (forall oid now body,
     unique_ids (snd (Routes.post_user_settings oid now body db))) /\
  (forall now id body,
     unique_ids (snd (Routes.patch_user_settings now id body db))).
Proof.
  intros [Us Uu]. split; [| split; [| split; [| split]]].
  - intros oid now [uid |]; [| split; assumption].
    unfold Routes.post_income_session, MongoStorage.getActiveSession,
      MongoStorage.createIncomeSession,
      try_catch, bind, gets, ret, modify, throw.
    destruct (String.eqb uid ""); [split; assumption |].
    destruct (Model.findOne _ (MongoStorage.IncomeSessionModel db));
      [split; assumption |].
    destruct (Model.save IncomeSessionDoc._id
                (MongoStorage.new_IncomeSessionModel oid now
                   (InsertIncomeSession.mk uid))
                (MongoStorage.IncomeSessionModel db)) as [c |] eqn:S;
      [| split; assumption].
    split; [| exact Uu]. simpl.
    apply (save_unique _ IncomeSessionDoc._id _ _ _ S Us).
  - intros now id.
    unfold Routes.delete_income_session, MongoStorage.getIncomeSessionById,
      MongoStorage.getUserSettingsById, MongoStorage.getUserSettings,
      MongoStorage.updateIncomeSession, try_catch, bind, gets, ret.
    destruct (Model.findById IncomeSessionDoc._id id
                (MongoStorage.IncomeSessionModel db)) as [doc |];
      [| split; assumption].
    cbn [MongoStorage.toIncomeSession IncomeSession.isActive
         IncomeSession.userSettingsId IncomeSession.sessionStart].
    destruct (IncomeSessionDoc.isActive doc); [| split; assumption].
    cbn [negb].
    destruct (Model.findById UserSettingsDoc._id
                (IncomeSessionDoc.userSettingsId doc)
                (MongoStorage.UserSettingsModel db)) as [sdoc |];
      [| split; assumption].
    match goal with
    | |- context [Model.findByIdAndUpdate IncomeSessionDoc._id id ?u ?c] =>
        pose proof (update_keeps_ids _ IncomeSessionDoc._id u
                      (fun d => eq_refl) id c) as K;
        destruct (Model.findByIdAndUpdate IncomeSessionDoc._id id u c)
          as [found c']
    end.
    simpl in K.
    destruct found; (split; [simpl; rewrite K; exact Us | exact Uu]).
  - intros id v.
    unfold Routes.patch_income_session, MongoStorage.updateIncomeSession,
      try_catch, bind, ret.
    match goal with
    | |- context [Model.findByIdAndUpdate IncomeSessionDoc._id id ?u ?c] =>
        pose proof (update_keeps_ids _ IncomeSessionDoc._id u
                      (fun d => eq_refl) id c) as K;
        destruct (Model.findByIdAndUpdate IncomeSessionDoc._id id u c)
          as [found c']
    end.
    simpl in K.
    destruct found; (split; [simpl; rewrite K; exact Us | exact Uu]).
  - intros oid now body. unfold Routes.post_user_settings.
    destruct (Zod.insertUserSettingsSchema body) as [v | errors];
      [| split; assumption].
    unfold MongoStorage.createUserSettings,
      try_catch, bind, gets, ret, modify, throw.
    destruct (Model.save UserSettingsDoc._id
                (MongoStorage.new_UserSettingsModel oid now v)
                (MongoStorage.UserSettingsModel db)) as [c |] eqn:S;
      [| split; assumption].
    split; [exact Us |]. simpl.
    apply (save_unique _ UserSettingsDoc._id _ _ _ S Uu).
  - intros now id body. unfold Routes.patch_user_settings.
    destruct (Zod.insertUserSettingsSchema_partial body) as [p | errors];
      [| split; assumption].
    unfold MongoStorage.updateUserSettings, try_catch, bind, ret.
    pose proof (update_keeps_ids _ UserSettingsDoc._id
                  (MongoStorage.set_settings_paths now p)
                  (set_settings_paths_keeps_id now p) id
                  (MongoStorage.UserSettingsModel db)) as K.
    destruct (Model.findByIdAndUpdate UserSettingsDoc._id id
                (MongoStorage.set_settings_paths now p)
                (MongoStorage.UserSettingsModel db)) as [found c'].
    simpl in K.
    destruct found; (split; [exact Us | simpl; rewrite K; exact Uu]).
Qed.

Lemma handlers_keep_ids_unique_witness :
  (forall oid now userSettingsId,
     unique_ids
       (snd (Routes.post_income_session oid now userSettingsId Example.db))) /\
  (forall now id,
     unique_ids (snd (Routes.delete_income_session now id Example.db))) /\
  (forall id totalEarned,
     unique_ids (snd (Routes.patch_income_session id totalEarned Example.db))) /\
  (forall oid now body,
     unique_ids (snd (Routes.post_user_settings oid now body Example.db))) /\
  (forall now id body,
     unique_ids (snd (Routes.patch_user_settings now id body Example.db))).
Proof.
  apply (handlers_keep_ids_unique Example.db).
  split; simpl; repeat constructor; simpl; intuition discriminate.
Defined.



(** ** More on the two computations *)

Section MoreArithmetic.
Local Open Scope Q_scope.





End MoreArithmetic.

(** ** The two stores side by side *)

Section Agreement.
Variables Doc Rec : Type.
Variable _id : Doc -> string.
Variable to : Doc -> Rec.

Lemma get_of_collection (id : string) (c : list Doc) :
  JsMap.get id (map (fun d => (_id d, to d)) c)
  = option_map to (Model.findById _id id c).
Proof.
  unfold Model.findById, Model.findOne.
  induction c as [| e rest IH]; simpl; [reflexivity |].
  destruct (String.eqb (_id e) id); [reflexivity | exact IH].
Qed.

Lemma values_of_collection (c : list Doc) :
  JsMap.values (map (fun d => (_id d, to d)) c) = map to c.
Proof.
  unfold JsMap.values. rewrite map_map. reflexivity.
Qed.

Lemma find_of_map (P : Rec -> bool) (c : list Doc) :
  find P (map to c) = option_map to (find (fun d => P (to d)) c).
Proof.
  induction c as [| e rest IH]; simpl; [reflexivity |].
  destruct (P (to e)); [reflexivity | exact IH].
Qed.

Lemma find_pointwise (P Q : Doc -> bool) (c : list Doc) :
  (forall d, P d = Q d) -> find P c = find Q c.
Proof.
  intros E. induction c as [| e rest IH]; simpl; [reflexivity |].
  rewrite E, IH. reflexivity.
Qed.

Lemma set_of_update (id : string) (f : Doc -> Doc) (c : list Doc) (d : Doc) :
  (forall x, _id (f x) = _id x) ->
  Model.findById _id id c = Some d ->
  JsMap.set id (to (f d)) (map (fun x => (_id x, to x)) c)
  = map (fun x => (_id x, to x)) (snd (Model.findByIdAndUpdate _id id f c)).
Proof.
  intros Keep. unfold Model.findById, Model.findOne.
  induction c as [| e rest IH]; simpl; [discriminate |].
  destruct (String.eqb (_id e) id).
  - intros H. injection H as ->. simpl. rewrite Keep. reflexivity.
  - intros H. specialize (IH H).
    destruct (Model.findByIdAndUpdate _id id f rest). simpl in *.
    rewrite IH. reflexivity.
Qed.

Lemma set_of_new (id : string) (c : list Doc) (d : Doc) :
  Model.findById _id id c = None -> _id d = id ->
  JsMap.set id (to d) (map (fun x => (_id x, to x)) c)
  = map (fun x => (_id x, to x)) (c ++ [d]).
Proof.
  unfold Model.findById, Model.findOne. intros H E.
  induction c as [| e rest IH]; simpl in *.
  - rewrite E. reflexivity.
  - destruct (String.eqb (_id e) id); [discriminate |].
    rewrite (IH H). reflexivity.
Qed.

End Agreement.

Lemma spread_is_set_paths (doc : IncomeSessionDoc.t)
    (updateData : PartialIncomeSession.t) :
  PartialIncomeSession.id updateData = None ->
  MemStorage.spread (MongoStorage.toIncomeSession doc) updateData
  = MongoStorage.toIncomeSession (MongoStorage.set_paths updateData doc).
Proof.
  intros H. unfold MemStorage.spread, MongoStorage.set_paths,
    MongoStorage.toIncomeSession. simpl. rewrite H. reflexivity.
Qed.

(** X21: a [MemStorage] and a [MongoStorage] that hold the same records
    answer the reads alike: [getActiveSession] returns the same session
    for every configuration id and [getUserSettings] the same settings for
    every id, and neither store is changed. *)
Theorem stores_agree_on_reads
    (st : MemStorage.state) (db : MongoStorage.state) :
  same_store st db ->
  (forall uid,
     MemStorage.getActiveSession uid st
       = (fst (MongoStorage.getActiveSession uid db), st) /\
     snd (MongoStorage.getActiveSession uid db) = db) /\
  (forall id,
     MemStorage.getUserSettings id st
       = (fst (MongoStorage.getUserSettings id db), st) /\
     snd (MongoStorage.getUserSettings id db) = db).
Proof.
  intros [Su Ss]. split.
  - intros uid.
    unfold MemStorage.getActiveSession, MongoStorage.getActiveSession,
      Model.findOne, try_catch, bind, gets, ret.
    rewrite Ss, values_of_collection, find_of_map.
    rewrite (find_pointwise _ _ (active_for uid)).
    2:{ intros d. unfold active_for. simpl.
        destruct (IncomeSessionDoc.isActive d); reflexivity. }
    fold (active_for uid).
    destruct (find (active_for uid) (MongoStorage.IncomeSessionModel db));
      split; reflexivity.
  - intros id.
    unfold MemStorage.getUserSettings, MongoStorage.getUserSettings,
      try_catch, bind, gets, ret.
    rewrite Su, get_of_collection.
    destruct (Model.findById UserSettingsDoc._id id
                (MongoStorage.UserSettingsModel db)); split; reflexivity.
Qed.

Lemma stores_agree_on_reads_witness :
  (forall uid,
     MemStorage.getActiveSession uid Example.mem
       = (fst (MongoStorage.getActiveSession uid Example.valid_db),
          Example.mem) /\
     snd (MongoStorage.getActiveSession uid Example.valid_db)
     = Example.valid_db) /\
  (forall id,
     MemStorage.getUserSettings id Example.mem
       = (fst (MongoStorage.getUserSettings id Example.valid_db),
          Example.mem) /\
     snd (MongoStorage.getUserSettings id Example.valid_db)
     = Example.valid_db).
Proof.
  apply (stores_agree_on_reads Example.mem Example.valid_db).
  split; reflexivity.
Defined.



(** X23: on stores that hold the same records the writes on user
    settings agree and keep the stores alike: [updateUserSettings] at the
    same instant, and [createUserSettings] under an id that is not taken
    when the two clock readings of [MemStorage] are the instant of the
    save, return the same settings from both. *)
Theorem stores_agree_on_settings_writes
    (st : MemStorage.state) (db : MongoStorage.state) :
  same_store st db ->
  (forall now id updateData,
     fst (MemStorage.updateUserSettings now id updateData st)
     = fst (MongoStorage.updateUserSettings now id updateData db) /\
     same_store (snd (MemStorage.updateUserSettings now id updateData st))
       (snd (MongoStorage.updateUserSettings now id updateData db))) /\
  (forall oid now insertSettings,
     Model.findById UserSettingsDoc._id oid
       (MongoStorage.UserSettingsModel db) = None ->
     fst (MemStorage.createUserSettings oid now now insertSettings st)
     = fst (MongoStorage.createUserSettings oid now insertSettings db) /\
     same_store
       (snd (MemStorage.createUserSettings oid now now insertSettings st))
       (snd (MongoStorage.createUserSettings oid now insertSettings db))).
Proof.
  intros [Su Ss]. split.
  - intros now id p.
    unfold MemStorage.updateUserSettings, MemStorage.set_userSettings,
      MongoStorage.updateUserSettings, try_catch, bind, gets, ret, modify.
    rewrite Su, get_of_collection.
    pose proof (@findByIdAndUpdate_found _ UserSettingsDoc._id
                  (MongoStorage.set_settings_paths now p) id
                  (MongoStorage.UserSettingsModel db)) as Found.
    pose proof (@findByIdAndUpdate_missing _ UserSettingsDoc._id
                  (MongoStorage.set_settings_paths now p) id
                  (MongoStorage.UserSettingsModel db)) as Missing.
    pose proof (set_of_update _ _ UserSettingsDoc._id
                  MongoStorage.toUserSettings id
                  (MongoStorage.set_settings_paths now p)
                  (MongoStorage.UserSettingsModel db)) as Upd.
    destruct (Model.findById UserSettingsDoc._id id
                (MongoStorage.UserSettingsModel db)) as [doc |].
    + specialize (Found doc eq_refl).
      specialize (Upd doc (set_settings_paths_keeps_id now p) eq_refl).
      destruct (Model.findByIdAndUpdate UserSettingsDoc._id id
                  (MongoStorage.set_settings_paths now p)
                  (MongoStorage.UserSettingsModel db)) as [found c].
      simpl in Found, Upd. rewrite Found. simpl.
      split; [reflexivity |]. split; [| exact Ss]. simpl.
      rewrite Su. exact Upd.
    + rewrite (Missing eq_refl). simpl.
      split; [reflexivity |]. split; assumption.
  - intros oid now ins Fresh.
    unfold MemStorage.createUserSettings, MemStorage.set_userSettings,
      MongoStorage.createUserSettings, Model.save,
      try_catch, bind, gets, ret, modify.
    cbn [UserSettingsDoc._id MongoStorage.new_UserSettingsModel].
    rewrite Fresh. simpl.
    split; [reflexivity |]. split; [| exact Ss]. simpl.
    rewrite Su.
    apply (set_of_new _ _ UserSettingsDoc._id MongoStorage.toUserSettings
             oid (MongoStorage.UserSettingsModel db)
             (MongoStorage.new_UserSettingsModel oid now ins) Fresh eq_refl).
Qed.

Lemma stores_agree_on_settings_writes_witness :
  (forall now id updateData,
     fst (MemStorage.updateUserSettings now id updateData Example.mem)
     = fst (MongoStorage.updateUserSettings now id updateData
              Example.valid_db) /\
     same_store
       (snd (MemStorage.updateUserSettings now id updateData Example.mem))
       (snd (MongoStorage.updateUserSettings now id updateData
               Example.valid_db))) /\
  (forall oid now insertSettings,
     Model.findById UserSettingsDoc._id oid
       (MongoStorage.UserSettingsModel Example.valid_db) = None ->
     fst (MemStorage.createUserSettings oid now now insertSettings Example.mem)
     = fst (MongoStorage.createUserSettings oid now insertSettings
              Example.valid_db) /\
     same_store
       (snd (MemStorage.createUserSettings oid now now insertSettings
               Example.mem))
       (snd (MongoStorage.createUserSettings oid now insertSettings
               Example.valid_db))).
Proof.
  apply (stores_agree_on_settings_writes Example.mem Example.valid_db).
  split; reflexivity.
Defined.

(** ** Edge cases of the handlers on user settings *)

(** X24: [GET /api/user-settings/:id] answers the settings stored under
    the id, or 404 "Settings not found" when the id is not stored; the
    store is left as it was. *)
Theorem get_user_settings_answers_stored_only
    (db db' : MongoStorage.state) (id : string) (r : settings_response) :
  Routes.get_user_settings id db = (Returned r, db') ->
  db' = db /\
  ((r = settings_respond 404 (SettingsMessage "Settings not found") /\
    Model.findById UserSettingsDoc._id id (MongoStorage.UserSettingsModel db)
      = None)
   \/
   exists doc,
     r = settings_respond 200 (Settings (MongoStorage.toUserSettings doc)) /\
     Model.findById UserSettingsDoc._id id (MongoStorage.UserSettingsModel db)
       = Some doc /\
     In doc (MongoStorage.UserSettingsModel db) /\
     UserSettingsDoc._id doc = id).
Proof.
  unfold Routes.get_user_settings, MongoStorage.getUserSettings,
    try_catch, bind, gets, ret.
  destruct (Model.findById UserSettingsDoc._id id
              (MongoStorage.UserSettingsModel db)) as [doc |] eqn:F;
    intros H; injection H as <- <-; (split; [reflexivity |]).
  - right. exists doc. split; [reflexivity |]. split; [reflexivity |].
    split.
    + apply (@findById_In _ UserSettingsDoc._id id _ doc F).
    + apply (@findById_id _ UserSettingsDoc._id id _ doc F).
  - left. split; reflexivity.
Qed.

Lemma get_user_settings_answers_stored_only_witness :
  let r := settings_respond 404 (SettingsMessage "Settings not found") in
  Example.db = Example.db /\
  ((r = settings_respond 404 (SettingsMessage "Settings not found") /\
    Model.findById UserSettingsDoc._id "no such settings"
      (MongoStorage.UserSettingsModel Example.db) = None)
   \/
   exists doc,
     r = settings_respond 200 (Settings (MongoStorage.toUserSettings doc)) /\
     Model.findById UserSettingsDoc._id "no such settings"
       (MongoStorage.UserSettingsModel Example.db) = Some doc /\
     In doc (MongoStorage.UserSettingsModel Example.db) /\
     UserSettingsDoc._id doc = "no such settings").
Proof.
  apply (get_user_settings_answers_stored_only Example.db Example.db
           "no such settings").
  reflexivity.
Defined.

(** X25: an empty object is a body [PATCH /api/user-settings/:id]
    accepts: on stored settings it answers 200 with the settings as they
    were, but for updatedAt, which becomes the time of the request. *)
Theorem patch_user_settings_empty_body
    (db : MongoStorage.state) (now : Date) (id : string)
    (doc : UserSettingsDoc.t) :
  Model.findById UserSettingsDoc._id id (MongoStorage.UserSettingsModel db)
    = Some doc ->
  exists db' : MongoStorage.state,
    Routes.patch_user_settings now id
      (Some (SettingsBody.mk None None None None)) db
    = (Returned
         (settings_respond 200
            (Settings
               (UserSettings.mk
                  (UserSettingsDoc._id doc)
                  (UserSettingsDoc.monthlySalary doc)
                  (UserSettingsDoc.dailyHours doc)
                  (UserSettingsDoc.weeklyDays doc)
                  (UserSettingsDoc.isHoliday doc)
                  (UserSettingsDoc.createdAt doc)
                  now))),
       db').
Proof.
  intros F.
  set (p := PartialInsertUserSettings.mk None None None None).
  pose proof (@findByIdAndUpdate_found _ UserSettingsDoc._id
                (MongoStorage.set_settings_paths now p) id
                (MongoStorage.UserSettingsModel db) doc F) as U.
  exists (MongoStorage.mk
            (snd (Model.findByIdAndUpdate UserSettingsDoc._id id
                    (MongoStorage.set_settings_paths now p)
                    (MongoStorage.UserSettingsModel db)))
            (MongoStorage.IncomeSessionModel db)).
  unfold Routes.patch_user_settings.
  change (Zod.insertUserSettingsSchema_partial
            (Some (SettingsBody.mk None None None None)))
    with (Zod.Valid p).
  unfold MongoStorage.updateUserSettings, try_catch, bind, ret.
  destruct (Model.findByIdAndUpdate UserSettingsDoc._id id
              (MongoStorage.set_settings_paths now p)
              (MongoStorage.UserSettingsModel db)) as [found c].
  simpl in U. rewrite U. reflexivity.
Qed.

Lemma patch_user_settings_empty_body_witness :
  exists db' : MongoStorage.state,
    Routes.patch_user_settings 7200000 "507f1f77bcf86cd799439011"
      (Some (SettingsBody.mk None None None None)) Example.db
    = (Returned
         (settings_respond 200
            (Settings
               (UserSettings.mk "507f1f77bcf86cd799439011"
                  (Fin 5000) (Fin 8) (Fin 5) false 0 7200000))),
       db').
Proof.
  apply (patch_user_settings_empty_body Example.db 7200000
           "507f1f77bcf86cd799439011" Example.settingsDoc).
  reflexivity.
Defined.
